(** * Verification of the pull orchestration of salesforce-alm

    Shallow embedding of
      - src/lib/core/projectDir.ts      (module [ProjectDir])
      - src/lib/source/sourcePullApi.ts (module [SourcePull])
    and the properties of these two files. *)

From Stdlib Require Import String Ascii List ZArith Lia Bool Arith.
From Stdlib Require Import Permutation.
From Equations Require Import Equations.
Import ListNotations.

Local Open Scope string_scope.
Local Open Scope list_scope.

(* ===================================================================== *)
(** ** projectDir.ts *)
(* ===================================================================== *)

Module ProjectDir.

(** [fs.statSync] either returns or throws an error object; only the
    [code] property of the error is inspected ([None]: no such property). *)
Inductive StatOutcome : Type :=
| StatOk
| StatThrows (code : option string).

(** The error built by [getPath]. [oldAndBustedPath] is [None] while the
    property is not set; once set it holds the value of [foundProjectDir],
    which may itself be [null]. *)
Record ProjectError : Type := mkProjectError {
  name : string;
  message : string;
  oldAndBustedPath : option (option string)
}.

Inductive Completion (A : Type) : Type :=
| Returned (a : A)
| Thrown (e : ProjectError).
Arguments Returned {A} a.
Arguments Thrown {A} e.

(** [String.prototype.lastIndexOf] for a one-character search string:
    the greatest index holding [c], or -1. *)
Fixpoint lastIndexOf_from (c : ascii) (s : string) (i : Z) (acc : Z) : Z :=
  match s with
  | EmptyString => acc
  | String a rest =>
      lastIndexOf_from c rest (i + 1) (if Ascii.eqb a c then i else acc)
  end.

Definition lastIndexOf (c : ascii) (s : string) : Z :=
  lastIndexOf_from c s 0 (-1).

(** [s.substring(0, n)] for [0 <= n]. *)
Definition substring0 (n : Z) (s : string) : string :=
  String.substring 0 (Z.to_nat n) s.

Lemma lastIndexOf_from_bound c s : forall i acc,
  (acc < i)%Z ->
  (lastIndexOf_from c s i acc < i + Z.of_nat (String.length s))%Z.
Proof.
  induction s as [|a rest IH]; intros i acc Hacc; simpl.
  - lia.
  - specialize (IH (i + 1)%Z (if Ascii.eqb a c then i else acc)).
    destruct (Ascii.eqb a c); lia.
Qed.

Lemma lastIndexOf_lt_length c s :
  (lastIndexOf c s < Z.of_nat (String.length s))%Z.
Proof.
  unfold lastIndexOf.
  pose proof (lastIndexOf_from_bound c s 0 (-1)) as H. lia.
Qed.

Lemma length_substring_le : forall n m s,
  String.length (String.substring n m s) <= m.
Proof.
  induction n as [|n IHn]; intros m s.
  - revert s. induction m as [|m IHm]; intros s; destruct s; simpl; try lia.
    specialize (IHm s). lia.
  - destruct s; simpl.
    + destruct m; simpl; lia.
    + apply IHn.
Qed.

Lemma substring0_shorter c s :
  (0 < lastIndexOf c s)%Z ->
  String.length (substring0 (lastIndexOf c s) s) < String.length s.
Proof.
  intros Hpos. unfold substring0.
  pose proof (lastIndexOf_lt_length c s) as Hlt.
  pose proof (length_substring_le 0 (Z.to_nat (lastIndexOf c s)) s) as Hle.
  lia.
Qed.

Section GetPath.

(** The host: [path.sep], [path.join], the file system as seen by
    [fs.statSync] during one call, and the two file names and message
    texts that come from [configApi] and [messages]. *)
Variable sep : ascii.
Variable path_join : string -> string -> string.
Variable statSync : string -> StatOutcome.
Variable workspaceConfigFilename : string.
Variable oldAndBustedWorkspaceConfigFilename : string.
Variable msg_InvalidProjectWorkspace : string.
Variable msg_OldSfdxWorkspaceJsonPresent : option string -> string.

Definition invalidProjectWorkspace : ProjectError :=
  mkProjectError "InvalidProjectWorkspace" msg_InvalidProjectWorkspace None.

(** [err && err.code === 'ENOENT'] *)
Definition isENOENT (code : option string) : bool :=
  match code with
  | Some c => String.eqb c "ENOENT"
  | None => false
  end.

(** [traverseForFile]: the closure variable [foundProjectDir] is passed
    in and handed back next to the completion. *)
Equations? traverseForFile (workingDir file : string)
          (foundProjectDir : option string)
  : Completion unit * option string
  by wf (String.length workingDir) lt :=
  traverseForFile workingDir file foundProjectDir
    with statSync (path_join workingDir file) => {
    | StatOk => (Returned tt, Some workingDir)
    | StatThrows code with isENOENT code => {
      | false => (Returned tt, foundProjectDir)
      | true with Z_lt_dec 0 (lastIndexOf sep workingDir) => {
        | left _ =>
            traverseForFile
              (substring0 (lastIndexOf sep workingDir) workingDir)
              file foundProjectDir
        | right _ => (Thrown invalidProjectWorkspace, foundProjectDir) } } }.
Proof. apply substring0_shorter; assumption. Qed.

(** [getPath()] in a run where [process.cwd()] returns [cwd] at both of
    its calls and the getters of [config] and [_messages] return the
    values above. *)
Definition getPath (cwd : string) : Completion (option string) :=
  match traverseForFile cwd workspaceConfigFilename None with
  | (Returned _, foundProjectDir) => Returned foundProjectDir
  | (Thrown error, foundProjectDir) =>
      match traverseForFile cwd oldAndBustedWorkspaceConfigFilename
              foundProjectDir with
      | (Returned _, found') =>
          Thrown (mkProjectError (name error)
                    (msg_OldSfdxWorkspaceJsonPresent found')
                    (Some found'))
      | (Thrown _, _) => Thrown error
      end
  end.

(** The walk from [workingDir] towards the root meets, after candidates
    that all fail with ENOENT, a candidate whose stat fails with another
    error. *)
Inductive StatFailsOtherwise (file : string) : string -> Prop :=
| sfo_here workingDir code :
    statSync (path_join workingDir file) = StatThrows code ->
    isENOENT code = false ->
    StatFailsOtherwise file workingDir
| sfo_up workingDir code :
    statSync (path_join workingDir file) = StatThrows code ->
    isENOENT code = true ->
    (0 < lastIndexOf sep workingDir)%Z ->
    StatFailsOtherwise file
      (substring0 (lastIndexOf sep workingDir) workingDir) ->
    StatFailsOtherwise file workingDir.

(** The walk from [workingDir] towards the root finds [file] in [dir]:
    every candidate before [dir] fails with ENOENT and the stat in [dir]
    returns. *)
Inductive FoundAt (file : string) : string -> string -> Prop :=
| fa_here workingDir :
    statSync (path_join workingDir file) = StatOk ->
    FoundAt file workingDir workingDir
| fa_up workingDir code dir :
    statSync (path_join workingDir file) = StatThrows code ->
    isENOENT code = true ->
    (0 < lastIndexOf sep workingDir)%Z ->
    FoundAt file (substring0 (lastIndexOf sep workingDir) workingDir) dir ->
    FoundAt file workingDir dir.

(** Every candidate of the walk fails with ENOENT, down to a directory
    whose last separator is at index 0 or missing. *)
Inductive MissingEverywhere (file : string) : string -> Prop :=
| me_top workingDir code :
    statSync (path_join workingDir file) = StatThrows code ->
    isENOENT code = true ->
    (lastIndexOf sep workingDir <= 0)%Z ->
    MissingEverywhere file workingDir
| me_up workingDir code :
    statSync (path_join workingDir file) = StatThrows code ->
    isENOENT code = true ->
    (0 < lastIndexOf sep workingDir)%Z ->
    MissingEverywhere file
      (substring0 (lastIndexOf sep workingDir) workingDir) ->
    MissingEverywhere file workingDir.

End GetPath.

End ProjectDir.

(* ===================================================================== *)
(** ** sourcePullApi.ts: values, errors and the effect monad *)
(* ===================================================================== *)

Module SourcePull.

(** JavaScript values as far as the pull inspects them: primitives and
    arrays. Numbers are kept to the integers plus NaN. *)
#[warnings="-register-all"]
Inductive jsval : Type :=
| JUndefined
| JNull
| JBool (b : bool)
| JNum (n : Z)
| JNaN
| JStr (s : string)
| JArr (elems : list jsval).

(** Truthiness, as tested by [if (v)], [!v] and [a && b]. *)
Definition truthy (v : jsval) : bool :=
  match v with
  | JUndefined | JNull | JNaN => false
  | JBool b => b
  | JNum n => negb (n =? 0)%Z
  | JStr s => negb (String.eqb s "")
  | JArr _ => true
  end.

(** [_.isNil(v)] *)
Definition isNil (v : jsval) : bool :=
  match v with
  | JUndefined | JNull => true
  | _ => false
  end.

(** [v === 'literal'] *)
Definition strictEqStr (v : jsval) (lit : string) : bool :=
  match v with
  | JStr s => String.eqb s lit
  | _ => false
  end.

(** [options.wait]: the command line hands over a number or leaves the
    option out. *)
Inductive WaitMinutes : Type :=
| WaitUndefined
| WaitNaN
| WaitNumber (minutes : Z).

(** The global [isNaN] on such a value: [Number(undefined)] is NaN. *)
Definition isNaN (w : WaitMinutes) : bool :=
  match w with
  | WaitUndefined | WaitNaN => true
  | WaitNumber _ => false
  end.

Record FileProperty : Type := mkFileProperty {
  fp_type : string;
  fp_fullName : string;
  fp_fileName : string
}.

Record ObsoleteName : Type := mkObsoleteName {
  on_fullName : string;
  on_type : string
}.

(** [result.fileProperties]: nil, some value that is not an array, or an
    array of file properties. *)
Inductive FilePropertiesField : Type :=
| FPNil
| FPNotArray
| FPArray (entries : list FileProperty).

(** A retrieve result object. A result that is [undefined] or [null] is
    [None] at the places that hold a result. *)
Record RetrieveResult : Type := mkRetrieveResult {
  success : jsval;
  status : jsval;
  messages : jsval;
  fileProperties : FilePropertiesField
}.

(** The options object of [doPull], with the properties this file reads
    or writes. *)
Record Options : Type := mkOptions {
  wait : WaitMinutes;
  forceoverwrite : jsval;
  unsupportedMimeTypes : jsval;
  manifest : jsval;
  packageXml : jsval;
  debug : jsval;
  retrievetargetdir : jsval
}.

Definition set_wait (o : Options) (w : WaitMinutes) : Options :=
  mkOptions w (forceoverwrite o) (unsupportedMimeTypes o) (manifest o)
            (packageXml o) (debug o) (retrievetargetdir o).

Definition set_retrievetargetdir (o : Options) (d : jsval) : Options :=
  mkOptions (wait o) (forceoverwrite o) (unsupportedMimeTypes o) (manifest o)
            (packageXml o) (debug o) d.

(** What [_createPackageManifest] resolves to: [{ empty: true }],
    [{ file: ... }], or the object made by [ManifestCreateApi]. *)
Record Manifest : Type := mkManifest {
  m_empty : jsval;
  m_file : jsval
}.

(** The three properties that [doPull] lays over
    [MdRetrieveApi.getDefaultOptions()]. *)
Record RetrieveOptions : Type := mkRetrieveOptions {
  ro_retrievetargetdir : jsval;
  ro_unpackaged : jsval;
  ro_wait : WaitMinutes
}.

(** The types of the collaborators whose code lies outside this file. *)
Record Types : Type := mkTypes {
  World : Type;               (* everything the collaborators act on *)
  Aggregate : Type;           (* AggregateSourceElements *)
  Package : Type;             (* a package of source members *)
  WorkspaceElementObj : Type; (* workspaceElement.toObject() *)
  Conflict : Type             (* an element of getLocalConflicts() *)
}.

Section Pull.

Variable T : Types.

(** Error objects, with the properties read or set in this file. *)
Record JsError : Type := mkJsError {
  name : string;
  message : jsval;
  errorCode : jsval;
  result : option RetrieveResult;
  sourceConflictElements : option (list (Conflict T))
}.

(** A thrown value: an error object, or a primitive. *)
Inductive Thrown : Type :=
| ThrowErr (e : JsError)
| ThrowVal (v : jsval).

Inductive Outcome (A : Type) : Type :=
| Ok (a : A)
| Throw (t : Thrown).
Arguments Ok {A} a.
Arguments Throw {A} t.

(** One entry per call that leaves this file. *)
Inductive Event : Type :=
| EvStatusCreate
| EvDoStatus (local remote : bool)
| EvGetLocalConflicts
| EvGetRevisionsAsPackage (obsolete : list ObsoleteName)
| EvSetActivePackage (pkgName : string)
| EvCreateOutputDir
| EvCreateManifest (outputdir : jsval) (pkg : Package T)
| EvRetrieve (retrieveOptions : RetrieveOptions)
| EvGetDefinitionProperties (entries : list FileProperty)
| EvProcessMdapiFileProperty (changed : Aggregate T) (dir : jsval)
    (fileProperty : FileProperty)
    (bundleFileProperties : list (option FileProperty))
| EvHandleObsoleteSource (changed : Aggregate T) (fullName type : string)
| EvUpdateSource (changed : Aggregate T) (manifestRef : jsval)
    (checkForDuplicates : bool) (mimeTypes : jsval) (force : jsval)
| EvMaybeRefreshIndex (inbound : list (WorkspaceElementObj T))
| EvGetSourceMembersFromResult (inbound : list (WorkspaceElementObj T))
| EvUpdateSourceTracking
| EvCleanupOutputDir (dir : jsval)
| EvSetMaxRevisionCounterFromQuery.

(** The state threaded through a pull: the collaborators' world, the
    calls made so far (oldest first) and the field [this.obsoleteNames]. *)
Record State : Type := mkState {
  world : World T;
  trace : list Event;
  obsoleteNames : list ObsoleteName
}.

Definition M (A : Type) : Type := State -> Outcome A * State.

Definition ret {A} (a : A) : M A := fun st => (Ok a, st).

Definition bind {A B} (m : M A) (k : A -> M B) : M B :=
  fun st =>
    match m st with
    | (Ok a, st') => k a st'
    | (Throw t, st') => (Throw t, st')
    end.

Definition throw {A} (t : Thrown) : M A := fun st => (Throw t, st).

(** [p.catch(handler)] *)
Definition catch_ {A} (m : M A) (handler : Thrown -> M A) : M A :=
  fun st =>
    match m st with
    | (Ok a, st') => (Ok a, st')
    | (Throw t, st') => handler t st'
    end.

(** A collaborator call: it is recorded, then acts on the world. *)
Definition call {A} (ev : Event) (f : World T -> Outcome A * World T) : M A :=
  fun st =>
    let (o, w') := f (world st) in
    (o, mkState w' (trace st ++ [ev]) (obsoleteNames st)).

Definition getObsoleteNames : M (list ObsoleteName) :=
  fun st => (Ok (obsoleteNames st), st).

(** [BBPromise.mapSeries]: one item after the other; the first rejection
    rejects the whole and leaves the later items untouched. *)
Fixpoint mapSeries {A B} (f : A -> M B) (items : list A) : M (list B) :=
  match items with
  | [] => ret []
  | x :: rest =>
      bind (f x) (fun y =>
      bind (mapSeries f rest) (fun ys => ret (y :: ys)))
  end.

(** [array.forEach] with a callback that updates an accumulator. *)
Fixpoint forEach {A S} (f : S -> A -> M S) (items : list A) (acc : S) : M S :=
  match items with
  | [] => ret acc
  | x :: rest => bind (f acc x) (forEach f rest)
  end.

Notation "x <- m ;; k" := (bind m (fun x => k))
  (at level 100, m at next level, right associativity).
Notation "m ;;; k" := (bind m (fun _ => k))
  (at level 100, right associativity).

(* =================================================================== *)
(** ** The collaborators *)
(* =================================================================== *)

(** Everything [sourcePullApi.ts] imports. A call that can fail or touch
    the org, the disk or the tracking files acts on the world and yields
    an outcome; configuration and message look-ups are plain values. *)
Record Externals : Type := mkExternals {
  (* force.config / Messages / syncCommandHelper *)
  defaultSrcWaitMinutes : WaitMinutes;
  configSourceApiVersion : jsval;
  getApiVersion : jsval;
  msg_NonScratchOrgPull : string;
  getRetrieveFailureMessage : RetrieveResult -> string;
  (* SrcStatusApi *)
  statusCreate : World T -> Outcome unit * World T;
  doStatus : bool -> bool -> World T -> Outcome unit * World T;
  getLocalConflicts : World T -> Outcome (list (Conflict T)) * World T;
  (* SourceMetadataMemberRetrieveHelper: resolves to the packages by
     name, in the order [Object.keys] lists them, and says what the array
     it was passed holds afterwards *)
  getRevisionsAsPackage :
    list ObsoleteName -> World T ->
    Outcome (list (string * Package T) * list ObsoleteName) * World T;
  (* packageInfoCache, SourceUtil, package, ManifestCreateApi *)
  setActivePackage : string -> World T -> Outcome unit * World T;
  createOutputDir : World T -> Outcome string * World T;
  cleanupOutputDir : jsval -> World T -> Outcome unit * World T;
  isEmpty : Package T -> bool;
  setVersion : jsval -> Package T -> Package T;
  createManifestForMdapiPackage :
    Options -> jsval -> Package T -> World T -> Outcome Manifest * World T;
  (* MdRetrieveApi *)
  retrieve :
    RetrieveOptions -> World T -> Outcome (option RetrieveResult) * World T;
  (* the metadata registry: which file defines a bundle, and whether a
     definition file and a file belong to one bundle *)
  isDefinitionFile : FileProperty -> bool;
  sameBundle : FileProperty -> FileProperty -> bool;
  (* sourcePathUtil, SourceWorkspaceAdapter *)
  replaceForwardSlashes : string -> string;
  newAggregate : Aggregate T;
  processMdapiFileProperty :
    Aggregate T -> jsval -> FileProperty -> list (option FileProperty) ->
    World T -> Outcome (Aggregate T) * World T;
  handleObsoleteSource :
    Aggregate T -> string -> string ->
    World T -> Outcome (Aggregate T) * World T;
  updateSource :
    Aggregate T -> jsval -> bool -> jsval -> jsval ->
    World T -> Outcome (Aggregate T) * World T;
  workspaceElementObjects : Aggregate T -> list (WorkspaceElementObj T);
  (* SourceLocations, SourceUtil, MaxRevision *)
  maybeRefreshIndex :
    list (WorkspaceElementObj T) -> World T -> Outcome unit * World T;
  getSourceMembersFromResult :
    list (WorkspaceElementObj T) -> World T -> Outcome unit * World T;
  updateSourceTracking : World T -> Outcome unit * World T;
  setMaxRevisionCounterFromQuery : World T -> Outcome unit * World T
}.

Variable X : Externals.

(** Reading a property of [undefined] or [null]. *)
Definition typeError : Thrown :=
  ThrowErr (mkJsError "TypeError" JUndefined JUndefined None None).

(** [err.errorCode], [err.message] and [err.result] of a caught value:
    a primitive has none of them, and nil cannot be read from. *)
Definition readProp {A} (t : Thrown) (ofError : JsError -> A) (absent : A)
  : M A :=
  match t with
  | ThrowErr e => ret (ofError e)
  | ThrowVal v => if isNil v then throw typeError else ret absent
  end.

(* =================================================================== *)
(** ** The methods of MdapiPullApi *)
(* =================================================================== *)

(** The [logger.debug] and [util.inspect] lines are left out: they leave
    neither the value nor the calls of a method changed. *)

(** [static _didRetrieveSucceed(result)] *)
Definition _didRetrieveSucceed (res : option RetrieveResult) : bool :=
  match res with
  | None => false
  | Some r =>
      truthy (success r)
      && strictEqStr (status r) "Succeeded"
      && isNil (messages r)
      && match fileProperties r with
         | FPNil => false
         | FPNotArray => false
         | FPArray _ => true
         end
  end.

(** What one package contributes to the array [doPull] resolves to:
    [{ inboundFiles }]. *)
Record PullResult : Type := mkPullResult {
  inboundFiles : option (list (WorkspaceElementObj T))
}.

Definition retrieveFailed (r : RetrieveResult) : Thrown :=
  ThrowErr (mkJsError "RetrieveFailed"
              (JStr (getRetrieveFailureMessage X r))
              JUndefined None None).

(** [_processResults(result, inboundFiles)]; [None] is [undefined]. *)
Definition _processResults (res : option RetrieveResult)
           (inbound : option (list (WorkspaceElementObj T)))
  : M (option PullResult) :=
  match res with
  | None => ret None
  | Some r =>
      if _didRetrieveSucceed res then ret (Some (mkPullResult inbound))
      else throw (retrieveFailed r)
  end.

Definition sourceConflict (conflicts : list (Conflict T)) : Thrown :=
  ThrowErr (mkJsError "SourceConflict"
              (JStr "Conflicts found during sync down")
              JUndefined None (Some conflicts)).

(** The status comparison inside [_checkForConflicts]:
    [doStatus(...).then(() => statusApi.getLocalConflicts())]. *)
Definition statusComparison : M (list (Conflict T)) :=
  call (EvDoStatus true true) (doStatus X true true) ;;;
  call EvGetLocalConflicts (getLocalConflicts X).

(** The [.catch] handler of [_checkForConflicts]. The thrown value is the
    value of the assignment [SfdxError.wrap(err).message = errorMessage],
    which is [errorMessage]. *)
Definition statusFailed (err : Thrown) : M (list (Conflict T)) :=
  code <- readProp err errorCode JUndefined ;;
  errorMessage <-
    (if strictEqStr code "INVALID_TYPE"
     then ret (JStr (msg_NonScratchOrgPull X))
     else readProp err message JUndefined) ;;
  throw (ThrowVal errorMessage).

(** [_checkForConflicts(options)]: resolves to [[]] ([Some []]) under
    forceoverwrite and to [undefined] ([None]) when no conflict exists. *)
Definition _checkForConflicts (options : Options)
  : M (option (list (Conflict T))) :=
  if truthy (forceoverwrite options) then ret (Some [])
  else
    call EvStatusCreate (statusCreate X) ;;;
    conflicts <- catch_ statusComparison statusFailed ;;
    if (0 <? List.length conflicts)%nat then throw (sourceConflict conflicts)
    else ret None.

(** [_createPackageManifest(options, pkg)]; [outputdir] is the property
    that [doPull] adds to the options it passes. *)
Definition _createPackageManifest (options : Options) (outputdir : jsval)
           (pkg : Package T) : M Manifest :=
  if isEmpty X pkg then ret (mkManifest (JBool true) JUndefined)
  else if isNil (packageXml options) || negb (truthy (debug options)) then
    let sourceApiVersion :=
      if negb (isNil (configSourceApiVersion X))
      then configSourceApiVersion X
      else getApiVersion X in
    let pkg' := setVersion X sourceApiVersion pkg in
    call (EvCreateManifest outputdir pkg')
         (createManifestForMdapiPackage X options outputdir pkg')
  else ret (mkManifest JUndefined (packageXml options)).

(** The definition file that owns [fileProperty] among [entries]. *)
Definition owningDefinition (entries : list FileProperty)
           (fileProperty : FileProperty) : option FileProperty :=
  find (fun d => isDefinitionFile X d && sameBundle X d fileProperty)
       entries.

(** Modelled from the spec: [BundleMetadataType.getDefinitionProperties]
    (bundleMetadataType.ts is not among the sources), "a mapping from
    each sub-component file to its owning definition's file properties".
    The mapping is kept by position: entry [i] belongs to the [i]-th file
    property, and is [None] for a file without a definition file in the
    batch. It holds the definition's properties as they are when the
    mapping is computed. *)
Definition getDefinitionProperties (entries : list FileProperty)
  : list (option FileProperty) :=
  map (owningDefinition entries) entries.

(** The callback of [result.fileProperties.forEach]. *)
Definition syncFileProperty (dir : jsval)
           (bundle : list (option FileProperty))
           (changed : Aggregate T) (fileProperty : FileProperty)
  : M (Aggregate T) :=
  if String.eqb (fp_type fileProperty) "Package" then ret changed
  else
    let fp' := mkFileProperty (fp_type fileProperty)
                 (replaceForwardSlashes X (fp_fullName fileProperty))
                 (replaceForwardSlashes X (fp_fileName fileProperty)) in
    call (EvProcessMdapiFileProperty changed dir fp' bundle)
         (processMdapiFileProperty X changed dir fp' bundle).

(** The callback of [this.obsoleteNames.forEach]. *)
Definition syncObsoleteName (changed : Aggregate T) (o : ObsoleteName)
  : M (Aggregate T) :=
  call (EvHandleObsoleteSource changed (on_fullName o) (on_type o))
       (handleObsoleteSource X changed (on_fullName o) (on_type o)).

(** [_syncDownSource(result, options, swa)] *)
Definition _syncDownSource (r : RetrieveResult) (options : Options)
  : M (Aggregate T) :=
  match fileProperties r with
  | FPArray entries =>
      bundleFileProperties <-
        call (EvGetDefinitionProperties entries)
             (fun w => (Ok (getDefinitionProperties entries), w)) ;;
      changed <-
        forEach (syncFileProperty (retrievetargetdir options)
                   bundleFileProperties)
                entries (newAggregate X) ;;
      obsolete <- getObsoleteNames ;;
      changed' <- forEach syncObsoleteName obsolete changed ;;
      call (EvUpdateSource changed' (manifest options) false
              (unsupportedMimeTypes options) (forceoverwrite options))
           (updateSource X changed' (manifest options) false
              (unsupportedMimeTypes options) (forceoverwrite options))
  | _ => throw typeError
  end.

(** [_postRetrieve(result, options)] *)
Definition _postRetrieve (res : option RetrieveResult) (options : Options)
  : M (option PullResult) :=
  if _didRetrieveSucceed res then
    match res with
    | Some r =>
        changedSourceElements <- _syncDownSource r options ;;
        let inbound := workspaceElementObjects X changedSourceElements in
        call (EvMaybeRefreshIndex inbound) (maybeRefreshIndex X inbound) ;;;
        call (EvGetSourceMembersFromResult inbound)
             (getSourceMembersFromResult X inbound) ;;;
        call EvUpdateSourceTracking (updateSourceTracking X) ;;;
        _processResults res (Some inbound)
    | None => _processResults res None
    end
  else _processResults res None.

(** [{ fileProperties: [], success: true, status: 'Succeeded' }] *)
Definition succeededEmpty : RetrieveResult :=
  mkRetrieveResult (JBool true) (JStr "Succeeded") JUndefined (FPArray []).

(** [packages[pkgName]] *)
Fixpoint lookupPackage (pkgName : string)
         (packages : list (string * Package T)) : option (Package T) :=
  match packages with
  | [] => None
  | (k, pkg) :: rest =>
      if String.eqb k pkgName then Some pkg else lookupPackage pkgName rest
  end.

(** [let result; if (manifest.empty) { ... } else { ... }]: the value of
    [result] after the statement; [None] is [undefined]. *)
Definition retrieveOrSkip (opts : Options) (manifest : Manifest)
  : M (option RetrieveResult) :=
  if truthy (m_empty manifest) then
    obsolete <- getObsoleteNames ;;
    if (0 <? List.length obsolete)%nat then ret (Some succeededEmpty)
    else ret None
  else
    let retrieveOptions :=
      mkRetrieveOptions (retrievetargetdir opts) (m_file manifest)
                        (wait opts) in
    catch_ (call (EvRetrieve retrieveOptions) (retrieve X retrieveOptions))
           (fun err => readProp err result None).

(** The statements of the [try] block after the temp directory exists,
    with the promise of [_postRetrieve] followed to its end: manifest,
    retrieve (or not), [_postRetrieve]. *)
Definition retrievePackage (opts : Options) (pkg : option (Package T))
  : M (option PullResult) :=
  match pkg with
  | None => throw typeError
  | Some p =>
      manifest <- _createPackageManifest opts (retrievetargetdir opts) p ;;
      res <- retrieveOrSkip opts manifest ;;
      _postRetrieve res opts
  end.

(** The [try] block from the manifest to the value of [result]: what is
    awaited before [_postRetrieve] is called. *)
Definition packageResult (opts : Options) (pkg : option (Package T))
  : M (option RetrieveResult) :=
  match pkg with
  | None => throw typeError
  | Some p =>
      manifest <- _createPackageManifest opts (retrievetargetdir opts) p ;;
      retrieveOrSkip opts manifest
  end.

(** How far a call of [_postRetrieve] gets before its first [await] hands
    control back to the caller: either there is nothing to apply, or
    [_syncDownSource], whose body has no [await], has made all its calls,
    the persist call included. *)
Inductive Underway : Type :=
| NothingToApply
| ApplyMade (o : Outcome (Aggregate T)).

(** [_postRetrieve] up to that point. *)
Definition postRetrieveBegins (res : option RetrieveResult)
           (options : Options) : State -> Underway * State :=
  fun st =>
    if _didRetrieveSucceed res then
      match res with
      | Some r =>
          let (o, st1) := _syncDownSource r options st in (ApplyMade o, st1)
      | None => (NothingToApply, st)
      end
    else (NothingToApply, st).

(** [_postRetrieve] from that point on, when its promise is resumed. *)
Definition postRetrieveGoesOn (res : option RetrieveResult)
           (options : Options) (u : Underway) : M (option PullResult) :=
  match u with
  | NothingToApply => _processResults res None
  | ApplyMade (Throw t) => throw t
  | ApplyMade (Ok changedSourceElements) =>
      let inbound := workspaceElementObjects X changedSourceElements in
      call (EvMaybeRefreshIndex inbound) (maybeRefreshIndex X inbound) ;;;
      call (EvGetSourceMembersFromResult inbound)
           (getSourceMembersFromResult X inbound) ;;;
      call EvUpdateSourceTracking (updateSourceTracking X) ;;;
      _processResults res (Some inbound)
  end.

(** How the [try] block of the per-package callback ends: it throws, or it
    reaches [return this._postRetrieve(result, opts)], which returns the
    promise of [_postRetrieve] without awaiting it. *)
Inductive TryEnd : Type :=
| TryThrew (t : Thrown)
| TryReturned (res : option RetrieveResult) (u : Underway).

(** The whole [try] block. The local [opts] comes back with its end, since
    [finally] reads [opts.retrievetargetdir] however the block ends. *)
Definition packageTry (opts : Options) (pkg : option (Package T))
  : State -> (TryEnd * Options) * State :=
  fun st =>
    match call EvCreateOutputDir (createOutputDir X) st with
    | (Throw t, st1) => ((TryThrew t, opts), st1)
    | (Ok dir, st1) =>
        let opts1 := set_retrievetargetdir opts (JStr dir) in
        match packageResult opts1 pkg st1 with
        | (Throw t, st2) => ((TryThrew t, opts1), st2)
        | (Ok res, st2) =>
            let (u, st3) := postRetrieveBegins res opts1 st2 in
            ((TryReturned res u, opts1), st3)
        end
    end.

(** What the returned promise settles to once [finally] is through. *)
Definition settle (opts : Options) (e : TryEnd) : M (option PullResult) :=
  match e with
  | TryThrew t => throw t
  | TryReturned res u => postRetrieveGoesOn res opts u
  end.

(** The end of the callback for a given [result]: the promise of
    [_postRetrieve] is made and returned, [finally] cleans up, the promise
    goes on, and the step settles. *)
Definition returnAndCleanUp (opts : Options) (res : option RetrieveResult)
  : M (option PullResult) :=
  fun st =>
    let (u, st1) := postRetrieveBegins res opts st in
    let (cleaned, st2) :=
      call (EvCleanupOutputDir (retrievetargetdir opts))
           (cleanupOutputDir X (retrievetargetdir opts)) st1 in
    let (o, st3) := postRetrieveGoesOn res opts u st2 in
    (match cleaned with
     | Ok _ => o
     | Throw t => Throw t
     end, st3).

(** The callback handed to [mapSeries]: [try { ... } finally { ... }].
    Since the [try] block returns the promise of [_postRetrieve] as it is,
    [finally] calls [cleanupOutputDir] when that promise first waits, that
    is after the calls of the apply step and before the tracking calls;
    the promise goes on whatever the cleanup does. The step settles after
    both: to what the cleanup threw, if it threw, and else to what the
    promise settles to. Each call acts on the world when it is made. *)
Definition pullPackage (options : Options)
           (packages : list (string * Package T)) (pkgName : string)
  : M (option PullResult) :=
  call (EvSetActivePackage pkgName) (setActivePackage X pkgName) ;;;
  fun st =>
    let '((e, opts), st1) :=
      packageTry options (lookupPackage pkgName packages) st in
    let (cleaned, st2) :=
      call (EvCleanupOutputDir (retrievetargetdir opts))
           (cleanupOutputDir X (retrievetargetdir opts)) st1 in
    let (o, st3) := settle opts e st2 in
    (match cleaned with
     | Ok _ => o
     | Throw t => Throw t
     end, st3).

(** [this.smmHelper.getRevisionsAsPackage(this.obsoleteNames)]: the array
    is passed by reference, so the field holds what the helper left. *)
Definition revisionsAsPackage : M (list (string * Package T)) :=
  fun st =>
    let ev := EvGetRevisionsAsPackage (obsoleteNames st) in
    match getRevisionsAsPackage X (obsoleteNames st) (world st) with
    | (Ok (packages, obsolete'), w') =>
        (Ok packages, mkState w' (trace st ++ [ev]) obsolete')
    | (Throw t, w') =>
        (Throw t, mkState w' (trace st ++ [ev]) (obsoleteNames st))
    end.

(** [options.wait] after the first statement of [doPull]. *)
Definition withDefaultWait (options : Options) : Options :=
  if isNaN (wait options)
  then set_wait options (defaultSrcWaitMinutes X)
  else options.

(** [doPull(options)] from package partitioning on. *)
Definition pullPackages (options : Options)
  : M (list (option PullResult)) :=
  packages <- revisionsAsPackage ;;
  results <- mapSeries (pullPackage options packages)
                       (map fst packages) ;;
  call EvSetMaxRevisionCounterFromQuery
       (setMaxRevisionCounterFromQuery X) ;;;
  ret results.

(** [doPull(options)] *)
Definition doPull (options : Options) : M (list (option PullResult)) :=
  let options := withDefaultWait options in
  _checkForConflicts options ;;;
  pullPackages options.

(* =================================================================== *)
(** ** What a computation adds to the trace *)
(* =================================================================== *)

(** Whatever [m] does, it only appends calls to the trace, and each call
    it appends satisfies [P]. *)
Definition emits (P : Event -> Prop) {A} (m : M A) : Prop :=
  forall st o st',
    m st = (o, st') ->
    exists evs, trace st' = trace st ++ evs /\ Forall P evs.

(** The calls of [_syncDownSource] after the definition mapping has been
    computed from [entries]. *)
Definition syncEvent (opts : Options) (entries : list FileProperty)
           (ev : Event) : Prop :=
  match ev with
  | EvProcessMdapiFileProperty _ dir _ bundle =>
      dir = retrievetargetdir opts
      /\ bundle = getDefinitionProperties entries
  | EvHandleObsoleteSource _ _ _ => True
  | EvUpdateSource _ manifestRef checkForDuplicates mimeTypes force =>
      manifestRef = manifest opts
      /\ checkForDuplicates = false
      /\ mimeTypes = unsupportedMimeTypes opts
      /\ force = forceoverwrite opts
  | _ => False
  end.

(** A persist call, if [ev] is one, skips the duplicate check and carries
    the two flags of [opts]. *)
Definition persistEvent (opts : Options) (ev : Event) : Prop :=
  match ev with
  | EvUpdateSource _ _ checkForDuplicates mimeTypes force =>
      checkForDuplicates = false
      /\ mimeTypes = unsupportedMimeTypes opts
      /\ force = forceoverwrite opts
  | _ => True
  end.

(** One [handleObsoleteSource] call per obsolete name, in order, each on
    the aggregate as the calls before it left it. *)
Fixpoint obsoleteCalls (changed : list (Aggregate T))
         (obsolete : list ObsoleteName) : list Event :=
  match changed, obsolete with
  | c :: cs, o :: os =>
      EvHandleObsoleteSource c (on_fullName o) (on_type o)
      :: obsoleteCalls cs os
  | _, _ => []
  end.

(* =================================================================== *)
(** ** Further vocabulary for the calls of a pull *)
(* =================================================================== *)

(** Like [emits], and [m] leaves the field [this.obsoleteNames] alone. *)
Definition runs (P : Event -> Prop) {A} (m : M A) : Prop :=
  forall st o st',
    m st = (o, st') ->
    obsoleteNames st' = obsoleteNames st
    /\ exists evs, trace st' = trace st ++ evs /\ Forall P evs.

(** What holds of each call in the [try] block of a package whose local
    options are [opts], once the temp directory is in them. *)
Definition stepEvent (opts : Options) (ev : Event) : Prop :=
  match ev with
  | EvCreateManifest outputdir _ => outputdir = retrievetargetdir opts
  | EvRetrieve ro =>
      ro_retrievetargetdir ro = retrievetargetdir opts
      /\ ro_wait ro = wait opts
  | EvGetDefinitionProperties _ => True
  | EvProcessMdapiFileProperty _ dir fileProperty _ =>
      dir = retrievetargetdir opts
      /\ String.eqb (fp_type fileProperty) "Package" = false
  | EvHandleObsoleteSource _ _ _ => True
  | EvUpdateSource _ manifestRef checkForDuplicates mimeTypes force =>
      manifestRef = manifest opts
      /\ checkForDuplicates = false
      /\ mimeTypes = unsupportedMimeTypes opts
      /\ force = forceoverwrite opts
  | EvMaybeRefreshIndex _ | EvGetSourceMembersFromResult _
  | EvUpdateSourceTracking => True
  | _ => False
  end.

(** What holds of each call of [doPull] after the conflict check, for the
    options as they are after the wait default. *)
Definition pullEvent (options : Options) (ev : Event) : Prop :=
  match ev with
  | EvStatusCreate | EvDoStatus _ _ | EvGetLocalConflicts => False
  | EvCreateManifest outputdir _ => exists d, outputdir = JStr d
  | EvRetrieve ro =>
      (exists d, ro_retrievetargetdir ro = JStr d)
      /\ ro_wait ro = wait options
  | EvProcessMdapiFileProperty _ dir fileProperty _ =>
      (exists d, dir = JStr d)
      /\ String.eqb (fp_type fileProperty) "Package" = false
  | EvUpdateSource _ manifestRef checkForDuplicates mimeTypes force =>
      manifestRef = manifest options
      /\ checkForDuplicates = false
      /\ mimeTypes = unsupportedMimeTypes options
      /\ force = forceoverwrite options
  | _ => True
  end.

(** The calls of the conflict check. *)
Definition statusEvent (ev : Event) : Prop :=
  match ev with
  | EvStatusCreate | EvDoStatus _ _ | EvGetLocalConflicts => True
  | _ => False
  end.

(** The file property as the per-file call gets it: names with the
    separators of the host. *)
Definition hostSeparators (fileProperty : FileProperty) : FileProperty :=
  mkFileProperty (fp_type fileProperty)
    (replaceForwardSlashes X (fp_fullName fileProperty))
    (replaceForwardSlashes X (fp_fileName fileProperty)).

(** The entries that the [forEach] callback does not skip. *)
Definition retained (entries : list FileProperty) : list FileProperty :=
  filter (fun fp => negb (String.eqb (fp_type fp) "Package")) entries.

(** One [processMdapiFileProperty] call per file, in order, each on the
    aggregate as the calls before it left it. *)
Fixpoint fileCalls (dir : jsval) (bundle : list (option FileProperty))
         (changed : list (Aggregate T)) (files : list FileProperty)
  : list Event :=
  match changed, files with
  | c :: cs, f :: fs =>
      EvProcessMdapiFileProperty c dir f bundle :: fileCalls dir bundle cs fs
  | _, _ => []
  end.

(** Whether a temp directory is open after [evs], given whether one was
    open before; [None] when a directory is created while one is open or
    cleaned up while none is. *)
Fixpoint tempDirOpen (open : bool) (evs : list Event) : option bool :=
  match evs with
  | [] => Some open
  | EvCreateOutputDir :: rest =>
      if open then None else tempDirOpen true rest
  | EvCleanupOutputDir _ :: rest =>
      if open then tempDirOpen false rest else None
  | _ :: rest => tempDirOpen open rest
  end.

(** The per-file calls on [files], one after the other from the world [w]:
    each call gets the aggregate that the call before it returned,
    starting with [acc]; [given] lists the aggregates the calls were given,
    [changed] is what the last one returned. *)
Inductive FilesProcessed (dir : jsval) (bundle : list (option FileProperty))
  : World T -> Aggregate T -> list FileProperty ->
    list (Aggregate T) -> Aggregate T -> World T -> Prop :=
| fp_done w acc : FilesProcessed dir bundle w acc [] [] acc w
| fp_step w acc file rest a w1 given changed w' :
    processMdapiFileProperty X acc dir file bundle w = (Ok a, w1) ->
    FilesProcessed dir bundle w1 a rest given changed w' ->
    FilesProcessed dir bundle w acc (file :: rest) (acc :: given) changed w'.

(** The same for the [handleObsoleteSource] calls on the obsolete names. *)
Inductive NamesHandled
  : World T -> Aggregate T -> list ObsoleteName ->
    list (Aggregate T) -> Aggregate T -> World T -> Prop :=
| nh_done w acc : NamesHandled w acc [] [] acc w
| nh_step w acc o rest a w1 given changed w' :
    handleObsoleteSource X acc (on_fullName o) (on_type o) w = (Ok a, w1) ->
    NamesHandled w1 a rest given changed w' ->
    NamesHandled w acc (o :: rest) (acc :: given) changed w'.

(** Whatever [m] does, the calls it appends, taken together, satisfy [Q]. *)
Definition emitsAll (Q : list Event -> Prop) {A} (m : M A) : Prop :=
  forall st o st',
    m st = (o, st') ->
    exists evs, trace st' = trace st ++ evs /\ Q evs.

(** No temp directory is open after [evs], and none was opened while
    another was open. *)
Definition tempDirsClosed (evs : list Event) : Prop :=
  tempDirOpen false evs = Some false.

End Pull.

Arguments Ok {T A} a.
Arguments Throw {T A} t.
Arguments ThrowErr {T} e.
Arguments EvStatusCreate {T}.
Arguments EvDoStatus {T} local remote.
Arguments EvGetLocalConflicts {T}.
Arguments EvGetRevisionsAsPackage {T} obsolete.
Arguments EvSetActivePackage {T} pkgName.
Arguments EvCreateOutputDir {T}.
Arguments EvCreateManifest {T} outputdir pkg.
Arguments EvRetrieve {T} retrieveOptions.
Arguments EvGetDefinitionProperties {T} entries.
Arguments EvProcessMdapiFileProperty {T} changed dir fileProperty
  bundleFileProperties.
Arguments EvHandleObsoleteSource {T} changed fullName type.
Arguments EvUpdateSource {T} changed manifestRef checkForDuplicates mimeTypes
  force.
Arguments EvMaybeRefreshIndex {T} inbound.
Arguments EvGetSourceMembersFromResult {T} inbound.
Arguments EvUpdateSourceTracking {T}.
Arguments EvCleanupOutputDir {T} dir.
Arguments EvSetMaxRevisionCounterFromQuery {T}.
Arguments ThrowVal {T} v.
Arguments defaultSrcWaitMinutes {T} e.
Arguments configSourceApiVersion {T} e.
Arguments getApiVersion {T} e.
Arguments msg_NonScratchOrgPull {T} e.
Arguments getRetrieveFailureMessage {T} e.
Arguments statusCreate {T} e.
Arguments doStatus {T} e.
Arguments getLocalConflicts {T} e.
Arguments getRevisionsAsPackage {T} e.
Arguments setActivePackage {T} e.
Arguments createOutputDir {T} e.
Arguments cleanupOutputDir {T} e.
Arguments isEmpty {T} e.
Arguments setVersion {T} e.
Arguments createManifestForMdapiPackage {T} e.
Arguments retrieve {T} e.
Arguments isDefinitionFile {T} e.
Arguments sameBundle {T} e.
Arguments replaceForwardSlashes {T} e.
Arguments newAggregate {T} e.
Arguments processMdapiFileProperty {T} e.
Arguments handleObsoleteSource {T} e.
Arguments updateSource {T} e.
Arguments workspaceElementObjects {T} e.
Arguments maybeRefreshIndex {T} e.
Arguments getSourceMembersFromResult {T} e.
Arguments updateSourceTracking {T} e.
Arguments setMaxRevisionCounterFromQuery {T} e.
Arguments name {T} j.
Arguments message {T} j.
Arguments errorCode {T} j.
Arguments result {T} j.
Arguments sourceConflictElements {T} j.
Arguments inboundFiles {T} p.
Arguments mkJsError {T} name message errorCode result sourceConflictElements.
Arguments mkState {T} world trace obsoleteNames.
Arguments mkPullResult {T} inboundFiles.
Arguments world {T} s.
Arguments trace {T} s.
Arguments obsoleteNames {T} s.
Arguments ret {T A} a st.
Arguments bind {T A B} m k st.
Arguments throw {T A} t st.
Arguments catch_ {T A} m handler st.
Arguments call {T A} ev f st.
Arguments getObsoleteNames {T} st.
Arguments mapSeries {T A B} f items st.
Arguments forEach {T A S} f items acc st.
Arguments typeError {T}.
Arguments readProp {T A} t ofError absent st.
Arguments retrieveFailed {T} X r.
Arguments sourceConflict {T} conflicts.
Arguments _processResults {T} X res inbound st.
Arguments statusComparison {T} X st.
Arguments statusFailed {T} X err st.
Arguments _checkForConflicts {T} X options st.
Arguments _createPackageManifest {T} X options outputdir pkg st.
Arguments owningDefinition {T} X entries fileProperty.
Arguments getDefinitionProperties {T} X entries.
Arguments syncFileProperty {T} X dir bundle changed fileProperty st.
Arguments syncObsoleteName {T} X changed o st.
Arguments _syncDownSource {T} X r options st.
Arguments _postRetrieve {T} X res options st.
Arguments lookupPackage {T} pkgName packages.
Arguments retrieveOrSkip {T} X opts manifest st.
Arguments retrievePackage {T} X opts pkg st.
Arguments packageTry {T} X opts pkg st.
Arguments packageResult {T} X opts pkg st.
Arguments NothingToApply {T}.
Arguments ApplyMade {T} o.
Arguments TryThrew {T} t.
Arguments TryReturned {T} res u.
Arguments postRetrieveBegins {T} X res options st.
Arguments postRetrieveGoesOn {T} X res options u st.
Arguments settle {T} X opts e st.
Arguments returnAndCleanUp {T} X opts res st.
Arguments pullPackage {T} X options packages pkgName st.
Arguments revisionsAsPackage {T} X st.
Arguments withDefaultWait {T} X options.
Arguments pullPackages {T} X options st.
Arguments doPull {T} X options st.
Arguments emits {T} P {A} m.
Arguments syncEvent {T} X opts entries ev.
Arguments persistEvent {T} opts ev.
Arguments obsoleteCalls {T} changed obsolete.
Arguments runs {T} P {A} m.
Arguments stepEvent {T} opts ev.
Arguments pullEvent {T} options ev.
Arguments statusEvent {T} ev.
Arguments hostSeparators {T} X fileProperty.
Arguments fileCalls {T} dir bundle changed files.
Arguments tempDirOpen {T} open evs.
Arguments FilesProcessed {T} X dir bundle w acc files given changed w'.
Arguments NamesHandled {T} X w acc names given changed w'.
Arguments emitsAll {T} Q {A} m.
Arguments tempDirsClosed {T} evs.

Notation "x <- m ;; k" := (bind m (fun x => k))
  (at level 100, m at next level, right associativity).
Notation "m ;;; k" := (bind m (fun _ => k))
  (at level 100, right associativity).

(** The success predicate in the words of the specification: the result is
    non-nil, its success flag is set, its status equals "Succeeded", its
    messages are empty or absent, and its fileProperties are a list. It
    differs from [_didRetrieveSucceed] in the messages clause only. *)
Definition succeededAsSpecified (res : option RetrieveResult) : bool :=
  match res with
  | None => false
  | Some r =>
      truthy (success r)
      && strictEqStr (status r) "Succeeded"
      && match messages r with
         | JUndefined | JNull | JArr [] => true
         | _ => false
         end
      && match fileProperties r with
         | FPArray _ => true
         | _ => false
         end
  end.

(** [err.name] of a thrown value; a primitive has no such property. *)
Definition thrownName {T} (t : Thrown T) : option string :=
  match t with
  | ThrowErr e => Some (name e)
  | ThrowVal _ => None
  end.

(** The message text that a thrown value carries: the [message] of an
    error object, or the primitive itself. *)
Definition thrownText {T} (t : Thrown T) : jsval :=
  match t with
  | ThrowErr e => message e
  | ThrowVal v => v
  end.

Definition isPersist {T} (ev : Event T) : bool :=
  match ev with
  | EvUpdateSource _ _ _ _ _ => true
  | _ => false
  end.

(** [setActivePackage(pkgName)] *)
Definition isActivation {T} (pkgName : string) (ev : Event T) : bool :=
  match ev with
  | EvSetActivePackage n => String.eqb n pkgName
  | _ => false
  end.

(** [setMaxRevisionCounterFromQuery()] *)
Definition isRequery {T} (ev : Event T) : bool :=
  match ev with
  | EvSetMaxRevisionCounterFromQuery => true
  | _ => false
  end.

(** [SourceUtil.createOutputDir('pull')] *)
Definition isCreate {T} (ev : Event T) : bool :=
  match ev with
  | EvCreateOutputDir => true
  | _ => false
  end.

(** The three calls that record what was pulled. *)
Definition isTracking {T} (ev : Event T) : bool :=
  match ev with
  | EvMaybeRefreshIndex _ | EvGetSourceMembersFromResult _
  | EvUpdateSourceTracking => true
  | _ => false
  end.

(** What holds of each call that the [try] block of a package makes
    itself, before [finally]: it is a call of the step and no tracking
    call. *)
Definition beforeCleanup {T} (opts : Options) (ev : Event T) : Prop :=
  stepEvent opts ev /\ isTracking ev = false.

Definition isCleanup {T} (ev : Event T) : bool :=
  match ev with
  | EvCleanupOutputDir _ => true
  | _ => false
  end.

End SourcePull.

(* ===================================================================== *)
(** ** Concrete hosts, used to run the two files on examples *)
(* ===================================================================== *)

Module Scenario.

Import SourcePull.

(** A POSIX host on which the project file of [/home/dev/app] is missing
    and the one of [/home/dev] cannot be read. *)
Definition posixJoin (dir file : string) : string :=
  (dir ++ "/" ++ file)%string.

Definition lockedStat (p : string) : ProjectDir.StatOutcome :=
  if String.eqb p "/home/dev/sfdx-project.json"
  then ProjectDir.StatThrows (Some "EACCES")
  else ProjectDir.StatThrows (Some "ENOENT").

Definition lockedGetPath : string -> ProjectDir.Completion (option string) :=
  ProjectDir.getPath "/"%char posixJoin lockedStat
    "sfdx-project.json" "sfdx-workspace.json"
    "This directory does not contain a valid Salesforce DX project."
    (fun _ => "An old workspace file was found.").

(** A small org. The world counts the temp directories handed out so far;
    an aggregate lists what was written to or removed from the workspace. *)
Definition T0 : Types := mkTypes nat (list string) (list string) string string.

Definition dirName (n : nat) : string :=
  ("pull" ++ String (ascii_of_nat (48 + n)) "")%string.

Definition failedResult : RetrieveResult :=
  mkRetrieveResult (JBool false) (JStr "Failed") JUndefined FPNil.

Definition twoClasses : RetrieveResult :=
  mkRetrieveResult (JBool true) (JStr "Succeeded") JUndefined
    (FPArray [ mkFileProperty "ApexClass" "Foo" "classes/Foo.cls";
               mkFileProperty "ApexClass" "Bar" "classes/Bar.cls" ]).

(** The org of the examples, up to: the outcome of [doStatus], the
    conflicts, the packages, the obsolete names and the gateway. *)
Definition org
    (status : Outcome T0 unit) (conflicts : list string)
    (packages : list (string * list string))
    (obsolete : list ObsoleteName)
    (gateway : RetrieveOptions -> Outcome T0 (option RetrieveResult))
  : Externals T0 :=
  mkExternals T0
    (WaitNumber 33) JUndefined (JStr "50.0")
    "This command can only be used on orgs that have source tracking."
    (fun r => "Retrieve failed")
    (fun w => (Ok tt, w))
    (fun _ _ w => (status, w))
    (fun w => (Ok conflicts, w))
    (fun _ w => (Ok (packages, obsolete), w))
    (fun _ w => (Ok tt, w))
    (fun w => (Ok (dirName w), S w))
    (fun _ w => (Ok tt, w))
    (fun pkg => match pkg with [] => true | _ => false end)
    (fun _ pkg => pkg)
    (fun _ dir _ w =>
       (Ok (mkManifest JUndefined
              (match dir with JStr d => JStr (d ++ "/package.xml")%string | v => v end)),
        w))
    (fun ro w => (gateway ro, w))
    (fun fp => String.eqb (fp_fileName fp) (fp_fullName fp ++ ".cmp")%string)
    (fun d fp => String.eqb (fp_type d) (fp_type fp)
                 && String.eqb (fp_type d) "AuraDefinitionBundle")
    (fun s => s)
    []
    (fun changed _ fp _ w => (Ok (changed ++ [fp_fileName fp]), w))
    (fun changed fullName _ w => (Ok (changed ++ [("-" ++ fullName)%string]), w))
    (fun changed _ _ _ _ w => (Ok changed, w))
    (fun changed => changed)
    (fun _ w => (Ok tt, w))
    (fun _ w => (Ok tt, w))
    (fun w => (Ok tt, w))
    (fun w => (Ok tt, w)).

Definition plainOptions : Options :=
  mkOptions WaitUndefined JUndefined JUndefined JUndefined JUndefined
            JUndefined JUndefined.

Definition start : State T0 := mkState (T:=T0) 0 [] [].

(** The gateway answers the first temp directory with a failed result and
    every later one with two classes. *)
Definition firstFails (ro : RetrieveOptions)
  : Outcome T0 (option RetrieveResult) :=
  if strictEqStr (ro_retrievetargetdir ro) "pull0"
  then Ok (Some failedResult)
  else Ok (Some twoClasses).

(** The gateway answers the first temp directory with two classes and
    rejects every later call with an error that carries a failed result. *)
Definition secondFails (ro : RetrieveOptions)
  : Outcome T0 (option RetrieveResult) :=
  if strictEqStr (ro_retrievetargetdir ro) "pull0"
  then Ok (Some twoClasses)
  else Throw (ThrowErr (mkJsError "ETIMEDOUT" (JStr "gateway timeout")
                          JUndefined (Some failedResult) None)).

(** A result that is fine but for an empty [messages] array. *)
Definition emptyMessages : RetrieveResult :=
  mkRetrieveResult (JBool true) (JStr "Succeeded") (JArr []) (FPArray []).

Definition quietOrg : Externals T0 :=
  org (Ok tt) [] [] [] (fun _ => Ok None).

Definition twoPackages : list (string * list string) :=
  [("A", ["Foo"; "Bar"]); ("B", ["Baz"])].

(** Two packages; the gateway times out on the second. *)
Definition timeoutOrg : Externals T0 :=
  org (Ok tt) [] twoPackages [] secondFails.

(** Two packages; the gateway always answers with two classes. *)
Definition healthyOrg : Externals T0 :=
  org (Ok tt) [] twoPackages [] (fun _ => Ok (Some twoClasses)).

(** [Foo.cls] was changed both locally and in the org. *)
Definition conflictOrg : Externals T0 :=
  org (Ok tt) ["Foo.cls"] twoPackages [] secondFails.

Definition forcedOptions : Options :=
  mkOptions WaitUndefined (JBool true) JUndefined JUndefined JUndefined
            JUndefined JUndefined.

(** One Aura bundle: its definition file and two sibling files. *)
Definition rootCmp : FileProperty :=
  mkFileProperty "AuraDefinitionBundle" "root/root" "root/root.cmp".
Definition rootJs : FileProperty :=
  mkFileProperty "AuraDefinitionBundle" "root/rootController"
                 "root/rootController.js".
Definition rootCss : FileProperty :=
  mkFileProperty "AuraDefinitionBundle" "root/root" "root/root.css".

(** What [doStatus] rejects with on an org without source tracking. *)
Definition invalidType : JsError T0 :=
  mkJsError "INVALID_TYPE"
    (JStr "sObject type 'SourceMember' is not supported.")
    (JStr "INVALID_TYPE") None None.


(** POSIX hosts for [getPath]: the stat succeeds on the listed path, fails
    with EACCES on [locked] and with ENOENT anywhere else. *)
Definition statWith (present locked : string) (p : string)
  : ProjectDir.StatOutcome :=
  if String.eqb p present then ProjectDir.StatOk
  else if String.eqb p locked then ProjectDir.StatThrows (Some "EACCES")
  else ProjectDir.StatThrows (Some "ENOENT").

Definition getPathWith (present locked : string)
  : string -> ProjectDir.Completion (option string) :=
  ProjectDir.getPath "/"%char posixJoin (statWith present locked)
    "sfdx-project.json" "sfdx-workspace.json"
    "This directory does not contain a valid Salesforce DX project."
    (fun found =>
       match found with
       | Some d => ("An old workspace file was found in " ++ d)%string
       | None => "An old workspace file was found in null"
       end).

(** The org of the examples again, now also up to: the outcome of
    [SrcStatusApi.create], of [setActivePackage], of [createOutputDir] and
    of the persist call. *)
Definition orgWith
    (statusApi : Outcome T0 unit) (activate : Outcome T0 unit)
    (tempDir : nat -> Outcome T0 string)
    (persist : list string -> Outcome T0 (list string))
    (packages : list (string * list string))
    (obsolete : list ObsoleteName)
    (gateway : RetrieveOptions -> Outcome T0 (option RetrieveResult))
  : Externals T0 :=
  mkExternals T0
    (WaitNumber 33) JUndefined (JStr "50.0")
    "This command can only be used on orgs that have source tracking."
    (fun r => "Retrieve failed")
    (fun w => (statusApi, w))
    (fun _ _ w => (Ok tt, w))
    (fun w => (Ok [], w))
    (fun _ w => (Ok (packages, obsolete), w))
    (fun _ w => (activate, w))
    (fun w => (tempDir w, S w))
    (fun _ w => (Ok tt, w))
    (fun pkg => match pkg with [] => true | _ => false end)
    (fun _ pkg => pkg)
    (fun _ dir _ w =>
       (Ok (mkManifest JUndefined
              (match dir with
               | JStr d => JStr (d ++ "/package.xml")%string
               | v => v
               end)),
        w))
    (fun ro w => (gateway ro, w))
    (fun fp => String.eqb (fp_fileName fp) (fp_fullName fp ++ ".cmp")%string)
    (fun d fp => String.eqb (fp_type d) (fp_type fp)
                 && String.eqb (fp_type d) "AuraDefinitionBundle")
    (fun s => s)
    []
    (fun changed _ fp _ w => (Ok (changed ++ [fp_fileName fp]), w))
    (fun changed fullName _ w => (Ok (changed ++ [("-" ++ fullName)%string]), w))
    (fun changed _ _ _ _ w => (persist changed, w))
    (fun changed => changed)
    (fun _ w => (Ok tt, w))
    (fun _ w => (Ok tt, w))
    (fun w => (Ok tt, w))
    (fun w => (Ok tt, w)).

Definition diskFull : Thrown T0 :=
  ThrowErr (mkJsError "ENOSPC" (JStr "no space left on device")
              JUndefined None None).

(** A rejection of the gateway that carries no result. *)
Definition bareTimeout : JsError T0 :=
  mkJsError "ETIMEDOUT" (JStr "socket hang up") JUndefined None None.

(** The status API cannot be made. *)
Definition noStatusApi : Externals T0 :=
  orgWith (Throw diskFull) (Ok tt) (fun w => Ok (dirName w)) Ok
          twoPackages [] (fun _ => Ok (Some twoClasses)).

(** No package can be made the active one. *)
Definition noActivation : Externals T0 :=
  orgWith (Ok tt) (Throw diskFull) (fun w => Ok (dirName w)) Ok
          twoPackages [] (fun _ => Ok (Some twoClasses)).

(** No temp directory can be made. *)
Definition noTempDir : Externals T0 :=
  orgWith (Ok tt) (Ok tt) (fun _ => Throw diskFull) Ok
          twoPackages [] (fun _ => Ok (Some twoClasses)).

(** The persist call fails. *)
Definition noPersist : Externals T0 :=
  orgWith (Ok tt) (Ok tt) (fun w => Ok (dirName w)) (fun _ => Throw diskFull)
          twoPackages [] (fun _ => Ok (Some twoClasses)).

(** The gateway rejects without a result. *)
Definition bareTimeoutOrg : Externals T0 :=
  orgWith (Ok tt) (Ok tt) (fun w => Ok (dirName w)) Ok
          twoPackages [] (fun _ => Throw (ThrowErr bareTimeout)).

(** Two packages; the gateway answers the first with a failed result. *)
Definition failingOrg : Externals T0 :=
  org (Ok tt) [] twoPackages [] firstFails.

(** Two obsolete names come out of partitioning. *)
Definition goneNames : list ObsoleteName :=
  [mkObsoleteName "Gone" "ApexClass"; mkObsoleteName "Old" "ApexTrigger"].

Definition obsoleteOrg : Externals T0 :=
  org (Ok tt) [] twoPackages goneNames (fun _ => Ok (Some twoClasses)).

(** One package with nothing to retrieve. *)
Definition emptyPackageOrg : Externals T0 :=
  org (Ok tt) [] [("E", [])] goneNames (fun _ => Ok None).

(** A result with the package manifest entry in the middle. *)
Definition withManifestEntry : RetrieveResult :=
  mkRetrieveResult (JBool true) (JStr "Succeeded") JUndefined
    (FPArray [ mkFileProperty "ApexClass" "Foo" "classes/Foo.cls";
               mkFileProperty "Package" "unpackaged/package.xml"
                              "unpackaged/package.xml";
               mkFileProperty "ApexClass" "Bar" "classes/Bar.cls" ]).

(** Options that name a manifest of their own, in debug mode. *)
Definition debugOptions : Options :=
  mkOptions (WaitNumber 5) JUndefined JUndefined JUndefined
            (JStr "my/package.xml") (JBool true) (JStr "pull0").

Definition inPull0 : Options :=
  mkOptions (WaitNumber 5) JUndefined JUndefined JUndefined JUndefined
            JUndefined (JStr "pull0").

End Scenario.

(* ===================================================================== *)
(** ** Properties of projectDir.ts *)
(* ===================================================================== *)

Module ProjectDirFacts.

Import ProjectDir.

Section Walk.

Variable sep : ascii.
Variable path_join : string -> string -> string.
Variable statSync : string -> StatOutcome.
Variable workspaceConfigFilename : string.
Variable oldAndBustedWorkspaceConfigFilename : string.
Variable msg_InvalidProjectWorkspace : string.
Variable msg_OldSfdxWorkspaceJsonPresent : option string -> string.

Let traverse :=
  traverseForFile sep path_join statSync msg_InvalidProjectWorkspace.

Lemma traverseForFile_swallows file workingDir found :
  StatFailsOtherwise sep path_join statSync file workingDir ->
  traverse workingDir file found = (Returned tt, found).
Proof.
  unfold traverse.
  intros H.
  induction H as [wd code Hstat Hcode | wd code Hstat Hcode Hpos Hrest IH].
  - rewrite traverseForFile_equation_1. rewrite Hstat. simpl.
    rewrite Hcode. reflexivity.
  - rewrite traverseForFile_equation_1. rewrite Hstat. simpl.
    rewrite Hcode. simpl.
    destruct (Z_lt_dec 0 (lastIndexOf sep wd)) as [Hp|Hn]; [|contradiction].
    simpl. exact IH.
Qed.

(** C10: when, on the way from the current working directory towards the
    root, the stat of a candidate config file fails with an error whose
    code is not ENOENT, the walk ends silently and [getPath] returns
    [null]: it neither returns a project directory nor throws
    InvalidProjectWorkspace. *)
Theorem getPath_null_on_other_stat_error (cwd : string) :
  StatFailsOtherwise sep path_join statSync workspaceConfigFilename cwd ->
  getPath sep path_join statSync workspaceConfigFilename
          oldAndBustedWorkspaceConfigFilename
          msg_InvalidProjectWorkspace msg_OldSfdxWorkspaceJsonPresent cwd
  = Returned None.
Proof.
  intros H. unfold getPath.
  pose proof (traverseForFile_swallows workspaceConfigFilename cwd None H)
    as E.
  unfold traverse in E. rewrite E. reflexivity.
Qed.

(** *** The three ways a walk can end *)

Lemma substring0_prefix : forall n s,
  exists rest, s = (String.substring 0 n s ++ rest)%string.
Proof.
  induction n as [|n IH]; intros s.
  - exists s. destruct s; reflexivity.
  - destruct s as [|a s].
    + exists ""%string. reflexivity.
    + destruct (IH s) as [rest E]. exists rest. simpl. congruence.
Qed.

Lemma append_assoc (a b c : string) :
  ((a ++ b) ++ c)%string = (a ++ (b ++ c))%string.
Proof. induction a as [|x a IH]; simpl; congruence. Qed.

Lemma length_substring0 : forall n s,
  n <= String.length s -> String.length (String.substring 0 n s) = n.
Proof.
  induction n as [|n IH]; intros s H.
  - destruct s; reflexivity.
  - destruct s as [|a s]; simpl in *; [lia|].
    rewrite IH; [reflexivity | lia].
Qed.

Lemma traverseForFile_cases file : forall workingDir found,
  (exists dir,
      FoundAt sep path_join statSync file workingDir dir
      /\ traverse workingDir file found = (Returned tt, Some dir))
  \/ (StatFailsOtherwise sep path_join statSync file workingDir
      /\ traverse workingDir file found = (Returned tt, found))
  \/ (MissingEverywhere sep path_join statSync file workingDir
      /\ traverse workingDir file found
         = (Thrown (invalidProjectWorkspace msg_InvalidProjectWorkspace),
            found)).
Proof.
  intros workingDir.
  remember (S (String.length workingDir)) as n eqn:Hn.
  assert (Hlt : String.length workingDir < n) by lia. clear Hn.
  revert workingDir Hlt.
  induction n as [|n IHn]; intros wd Hlt found; [lia|].
  assert (IH : forall wd', String.length wd' < String.length wd ->
                           forall found', _) by
    (intros wd' Hwd' found'; exact (IHn wd' ltac:(lia) found')).
  clear IHn. unfold traverse in *.
  rewrite traverseForFile_equation_1.
  destruct (statSync (path_join wd file)) as [|code] eqn:Hstat; simpl.
  - left. exists wd. split; [apply fa_here; exact Hstat | reflexivity].
  - destruct (isENOENT code) eqn:Hcode; simpl.
    + destruct (Z_lt_dec 0 (lastIndexOf sep wd)) as [Hp|Hn]; simpl.
      * destruct (IH (substring0 (lastIndexOf sep wd) wd)
                     (substring0_shorter sep wd Hp) found)
          as [[dir [Hf E]]|[[Hs E]|[Hm E]]].
        -- left. exists dir. split; [|exact E].
           eapply fa_up; eauto.
        -- right. left. split; [|exact E]. eapply sfo_up; eauto.
        -- right. right. split; [|exact E]. eapply me_up; eauto.
      * right. right. split; [|reflexivity].
        eapply me_top; eauto. lia.
    + right. left. split; [|reflexivity]. eapply sfo_here; eauto.
Qed.

Lemma traverseForFile_found file workingDir dir found :
  FoundAt sep path_join statSync file workingDir dir ->
  traverse workingDir file found = (Returned tt, Some dir).
Proof.
  unfold traverse. intros H.
  induction H as [wd Hstat | wd code dir Hstat Hcode Hpos Hrest IH].
  - rewrite traverseForFile_equation_1. rewrite Hstat. reflexivity.
  - rewrite traverseForFile_equation_1. rewrite Hstat. simpl.
    rewrite Hcode. simpl.
    destruct (Z_lt_dec 0 (lastIndexOf sep wd)) as [Hp|Hn]; [|contradiction].
    simpl. exact IH.
Qed.

Lemma traverseForFile_missing file workingDir found :
  MissingEverywhere sep path_join statSync file workingDir ->
  traverse workingDir file found
  = (Thrown (invalidProjectWorkspace msg_InvalidProjectWorkspace), found).
Proof.
  unfold traverse. intros H.
  induction H as [wd code Hstat Hcode Hpos
                 | wd code Hstat Hcode Hpos Hrest IH].
  - rewrite traverseForFile_equation_1. rewrite Hstat. simpl.
    rewrite Hcode. simpl.
    destruct (Z_lt_dec 0 (lastIndexOf sep wd)) as [Hp|Hn]; [lia|].
    reflexivity.
  - rewrite traverseForFile_equation_1. rewrite Hstat. simpl.
    rewrite Hcode. simpl.
    destruct (Z_lt_dec 0 (lastIndexOf sep wd)) as [Hp|Hn]; [|contradiction].
    simpl. exact IH.
Qed.

Lemma FoundAt_sound file workingDir dir :
  FoundAt sep path_join statSync file workingDir dir ->
  statSync (path_join dir file) = StatOk
  /\ (exists rest, workingDir = (dir ++ rest)%string)
  /\ (workingDir <> ""%string -> dir <> ""%string).
Proof.
  intros H.
  induction H as [wd Hstat | wd code dir Hstat Hcode Hpos Hrest IH].
  - split; [exact Hstat|]. split; [|auto].
    exists ""%string. clear. induction wd; simpl; congruence.
  - destruct IH as [Hok [[rest E] Hne]]. split; [exact Hok|]. split.
    + destruct (substring0_prefix (Z.to_nat (lastIndexOf sep wd)) wd)
        as [rest' E'].
      unfold substring0 in E. rewrite E in E'.
      exists (rest ++ rest')%string. rewrite <- append_assoc. exact E'.
    + intros _. apply Hne. intros Hempty.
      pose proof (lastIndexOf_lt_length sep wd) as Hlt.
      pose proof (length_substring0 (Z.to_nat (lastIndexOf sep wd)) wd
                    ltac:(lia)) as Hlen.
      unfold substring0 in Hempty. rewrite Hempty in Hlen. simpl in Hlen.
      lia.
Qed.

Let getPath' :=
  getPath sep path_join statSync workspaceConfigFilename
          oldAndBustedWorkspaceConfigFilename
          msg_InvalidProjectWorkspace msg_OldSfdxWorkspaceJsonPresent.

(** X1: when the walk from the current working directory finds the project
    file in a directory, after candidates that all fail with ENOENT,
    [getPath] returns that directory, the nearest one that holds the file;
    it is a prefix of the working directory. *)
Theorem getPath_returns_nearest_project_dir (cwd dir : string) :
  FoundAt sep path_join statSync workspaceConfigFilename cwd dir ->
  getPath' cwd = Returned (Some dir)
  /\ statSync (path_join dir workspaceConfigFilename) = StatOk
  /\ exists rest, cwd = (dir ++ rest)%string.
Proof.
  intros H. unfold getPath', getPath.
  pose proof (traverseForFile_found workspaceConfigFilename cwd dir None H)
    as E.
  unfold traverse in E. rewrite E.
  destruct (FoundAt_sound _ _ _ H) as [Hok [Hpre _]]. auto.
Qed.

(** X2: when [process.cwd()] returns [cwd] at both of its calls and the
    getters of [config] and [_messages] return, what [getPath] then does
    is accounted for by the walk for the project file: a returned
    directory is where the walk found the file, a returned [null] means a
    stat failed with a code other than ENOENT, and a thrown error means
    every candidate was missing, and it is named InvalidProjectWorkspace.
    What [process.cwd()] or a getter throws is outside [getPath] as it is
    defined here. *)
Theorem getPath_outcome_explained (cwd : string) :
  match getPath' cwd with
  | Returned (Some dir) =>
      FoundAt sep path_join statSync workspaceConfigFilename cwd dir
  | Returned None =>
      StatFailsOtherwise sep path_join statSync workspaceConfigFilename cwd
  | Thrown e =>
      MissingEverywhere sep path_join statSync workspaceConfigFilename cwd
      /\ name e = "InvalidProjectWorkspace"%string
  end.
Proof.
  unfold getPath', getPath.
  destruct (traverseForFile_cases workspaceConfigFilename cwd None)
    as [[dir [Hf E]]|[[Hs E]|[Hm E]]];
    unfold traverse in E; rewrite E.
  - exact Hf.
  - exact Hs.
  - destruct (traverseForFile sep path_join statSync
                msg_InvalidProjectWorkspace cwd
                oldAndBustedWorkspaceConfigFilename None) as [[u|e] f];
      split; auto.
Qed.

(** X3: a directory that [getPath] returns is never the empty string when
    the working directory is not: the walk stops at a directory whose last
    separator is at index 0, so the part before a leading separator is
    never a candidate. *)
Theorem getPath_never_returns_empty_dir (cwd dir : string) :
  getPath' cwd = Returned (Some dir) ->
  cwd <> ""%string -> dir <> ""%string.
Proof.
  unfold getPath', getPath. intros H Hne.
  destruct (traverseForFile_cases workspaceConfigFilename cwd None)
    as [[dir' [Hf E]]|[[Hs E]|[Hm E]]];
    unfold traverse in E; rewrite E in H.
  - inversion H; subst. apply (FoundAt_sound _ _ _ Hf); exact Hne.
  - discriminate.
  - destruct (traverseForFile sep path_join statSync
                msg_InvalidProjectWorkspace cwd
                oldAndBustedWorkspaceConfigFilename None) as [[u|e] f];
      discriminate.
Qed.

(** X4: when neither the project file nor the old workspace file exists in
    any candidate directory, [getPath] throws InvalidProjectWorkspace with
    the InvalidProjectWorkspace message and without [oldAndBustedPath]. *)
Theorem getPath_throws_plain_error_without_old_file (cwd : string) :
  MissingEverywhere sep path_join statSync workspaceConfigFilename cwd ->
  MissingEverywhere sep path_join statSync
    oldAndBustedWorkspaceConfigFilename cwd ->
  getPath' cwd
  = Thrown (mkProjectError "InvalidProjectWorkspace"
              msg_InvalidProjectWorkspace None).
Proof.
  intros H1 H2. unfold getPath', getPath.
  pose proof (traverseForFile_missing _ cwd None H1) as E1.
  pose proof (traverseForFile_missing _ cwd None H2) as E2.
  unfold traverse in E1, E2. rewrite E1, E2. reflexivity.
Qed.

(** X5: when the project file is missing everywhere but the old workspace
    file is found in a directory, the error keeps its name, its message
    becomes the OldSfdxWorkspaceJsonPresent message for that directory and
    [oldAndBustedPath] holds the directory. *)
Theorem getPath_reports_old_workspace_file (cwd dir : string) :
  MissingEverywhere sep path_join statSync workspaceConfigFilename cwd ->
  FoundAt sep path_join statSync oldAndBustedWorkspaceConfigFilename cwd dir ->
  getPath' cwd
  = Thrown (mkProjectError "InvalidProjectWorkspace"
              (msg_OldSfdxWorkspaceJsonPresent (Some dir))
              (Some (Some dir))).
Proof.
  intros H1 H2. unfold getPath', getPath.
  pose proof (traverseForFile_missing _ cwd None H1) as E1.
  pose proof (traverseForFile_found _ cwd dir None H2) as E2.
  unfold traverse in E1, E2. rewrite E1, E2. reflexivity.
Qed.

(** X6: when the project file is missing everywhere and the walk for the
    old workspace file ends on a stat error other than ENOENT, the error
    still gets the OldSfdxWorkspaceJsonPresent message, built from [null],
    and [oldAndBustedPath] is set to [null], although no old file was
    found. *)
Theorem getPath_old_file_stat_error_sets_null_path (cwd : string) :
  MissingEverywhere sep path_join statSync workspaceConfigFilename cwd ->
  StatFailsOtherwise sep path_join statSync
    oldAndBustedWorkspaceConfigFilename cwd ->
  getPath' cwd
  = Thrown (mkProjectError "InvalidProjectWorkspace"
              (msg_OldSfdxWorkspaceJsonPresent None) (Some None)).
Proof.
  intros H1 H2. unfold getPath', getPath.
  pose proof (traverseForFile_missing _ cwd None H1) as E1.
  pose proof (traverseForFile_swallows _ cwd None H2) as E2.
  unfold traverse in E1, E2. rewrite E1, E2. reflexivity.
Qed.

End Walk.

Lemma getPath_null_on_other_stat_error_witness :
  StatFailsOtherwise "/"%char Scenario.posixJoin Scenario.lockedStat
    "sfdx-project.json" "/home/dev/app"
  /\ Scenario.lockedGetPath "/home/dev/app" = Returned None.
Proof.
  assert (H : StatFailsOtherwise "/"%char Scenario.posixJoin
                Scenario.lockedStat "sfdx-project.json" "/home/dev/app").
  { eapply sfo_up with (code := Some "ENOENT").
    - reflexivity.
    - reflexivity.
    - vm_compute. reflexivity.
    - eapply sfo_here with (code := Some "EACCES"); reflexivity. }
  split; [exact H|].
  exact (getPath_null_on_other_stat_error "/"%char Scenario.posixJoin
           Scenario.lockedStat "sfdx-project.json" "sfdx-workspace.json" _ _
           "/home/dev/app" H).
Defined.

Ltac walk_up := eapply ProjectDir.fa_up with (code := Some "ENOENT");
                [reflexivity | reflexivity | vm_compute; reflexivity |].

Lemma missing_everywhere_example present locked file :
  Scenario.statWith present locked ("/home/dev/app/" ++ file)
  = StatThrows (Some "ENOENT") ->
  Scenario.statWith present locked ("/home/dev/" ++ file)
  = StatThrows (Some "ENOENT") ->
  Scenario.statWith present locked ("/home/" ++ file)
  = StatThrows (Some "ENOENT") ->
  MissingEverywhere "/"%char Scenario.posixJoin
    (Scenario.statWith present locked) file "/home/dev/app".
Proof.
  intros H1 H2 H3.
  eapply me_up with (code := Some "ENOENT");
    [exact H1 | reflexivity | vm_compute; reflexivity |].
  eapply me_up with (code := Some "ENOENT");
    [exact H2 | reflexivity | vm_compute; reflexivity |].
  eapply me_top with (code := Some "ENOENT");
    [exact H3 | reflexivity | vm_compute; discriminate].
Defined.

Lemma getPath_returns_nearest_project_dir_witness :
  Scenario.getPathWith "/home/dev/sfdx-project.json" "" "/home/dev/app"
  = Returned (Some "/home/dev").
Proof.
  refine (proj1 (getPath_returns_nearest_project_dir "/"%char
                   Scenario.posixJoin
                   (Scenario.statWith "/home/dev/sfdx-project.json" "")
                   "sfdx-project.json" "sfdx-workspace.json" _ _
                   "/home/dev/app" "/home/dev" _)).
  walk_up. apply fa_here. reflexivity.
Defined.

Lemma getPath_never_returns_empty_dir_witness :
  Scenario.getPathWith "/home/dev/sfdx-project.json" "" "/home/dev/app"
  = Returned (Some "/home/dev")
  /\ "/home/dev" <> "".
Proof.
  assert (H : Scenario.getPathWith "/home/dev/sfdx-project.json" ""
                "/home/dev/app" = Returned (Some "/home/dev"))
    by (vm_compute; reflexivity).
  split; [exact H|].
  eapply getPath_never_returns_empty_dir; [exact H | discriminate].
Defined.

Lemma getPath_throws_plain_error_without_old_file_witness :
  Scenario.getPathWith "" "" "/home/dev/app"
  = Thrown (mkProjectError "InvalidProjectWorkspace"
              "This directory does not contain a valid Salesforce DX project."
              None).
Proof.
  refine (getPath_throws_plain_error_without_old_file "/"%char
            Scenario.posixJoin (Scenario.statWith "" "")
            "sfdx-project.json" "sfdx-workspace.json" _ _
            "/home/dev/app" _ _).
  - apply missing_everywhere_example; reflexivity.
  - apply missing_everywhere_example; reflexivity.
Defined.

Lemma getPath_reports_old_workspace_file_witness :
  Scenario.getPathWith "/home/dev/sfdx-workspace.json" "" "/home/dev/app"
  = Thrown (mkProjectError "InvalidProjectWorkspace"
              "An old workspace file was found in /home/dev"
              (Some (Some "/home/dev"))).
Proof.
  refine (getPath_reports_old_workspace_file "/"%char
            Scenario.posixJoin
            (Scenario.statWith "/home/dev/sfdx-workspace.json" "")
            "sfdx-project.json" "sfdx-workspace.json" _ _
            "/home/dev/app" "/home/dev" _ _).
  - apply missing_everywhere_example; reflexivity.
  - walk_up. apply fa_here. reflexivity.
Defined.

Lemma getPath_old_file_stat_error_sets_null_path_witness :
  Scenario.getPathWith "" "/home/dev/sfdx-workspace.json" "/home/dev/app"
  = Thrown (mkProjectError "InvalidProjectWorkspace"
              "An old workspace file was found in null" (Some None)).
Proof.
  refine (getPath_old_file_stat_error_sets_null_path "/"%char
            Scenario.posixJoin
            (Scenario.statWith "" "/home/dev/sfdx-workspace.json")
            "sfdx-project.json" "sfdx-workspace.json" _ _
            "/home/dev/app" _ _).
  - apply missing_everywhere_example; reflexivity.
  - eapply sfo_up with (code := Some "ENOENT");
      [reflexivity | reflexivity | vm_compute; reflexivity |].
    eapply sfo_here with (code := Some "EACCES"); reflexivity.
Defined.

End ProjectDirFacts.

(* ===================================================================== *)
(** ** Properties of sourcePullApi.ts *)
(* ===================================================================== *)

Module SourcePullFacts.

Import SourcePull.

Section Facts.

Variable T : Types.
Variable X : Externals T.

(** *** The trace only grows *)

Lemma emits_ret P A (a : A) : emits (T:=T) P (ret a).
Proof.
  intros st o st' H. inversion H; subst. exists [].
  rewrite app_nil_r. auto.
Qed.

Lemma emits_throw P A (t : Thrown T) : emits P (throw (A:=A) t).
Proof.
  intros st o st' H. inversion H; subst. exists [].
  rewrite app_nil_r. auto.
Qed.

Lemma emits_getObsoleteNames P : emits (T:=T) P getObsoleteNames.
Proof.
  intros st o st' H. inversion H; subst. exists [].
  rewrite app_nil_r. auto.
Qed.

Lemma emits_call P A ev (f : World T -> Outcome T A * World T) :
  P ev -> emits P (call ev f).
Proof.
  intros Hev st o st' H. unfold call in H.
  destruct (f (world st)) as [o' w']. inversion H; subst.
  exists [ev]. simpl. auto.
Qed.

Lemma emits_bind P A B (m : M T A) (k : A -> M T B) :
  emits P m -> (forall a, emits P (k a)) -> emits P (bind m k).
Proof.
  intros Hm Hk st o st' H. unfold bind in H.
  destruct (m st) as [[a|t] st1] eqn:E.
  - destruct (Hm _ _ _ E) as [evs1 [E1 F1]].
    destruct (Hk a _ _ _ H) as [evs2 [E2 F2]].
    exists (evs1 ++ evs2). rewrite E2, E1, app_assoc.
    split; [reflexivity | apply Forall_app; auto].
  - inversion H; subst. exact (Hm _ _ _ E).
Qed.

Lemma emits_catch P A (m : M T A) (h : Thrown T -> M T A) :
  emits P m -> (forall t, emits P (h t)) -> emits P (catch_ m h).
Proof.
  intros Hm Hh st o st' H. unfold catch_ in H.
  destruct (m st) as [[a|t] st1] eqn:E.
  - inversion H; subst. exact (Hm _ _ _ E).
  - destruct (Hm _ _ _ E) as [evs1 [E1 F1]].
    destruct (Hh t _ _ _ H) as [evs2 [E2 F2]].
    exists (evs1 ++ evs2). rewrite E2, E1, app_assoc.
    split; [reflexivity | apply Forall_app; auto].
Qed.

Lemma emits_forEach P A S (f : S -> A -> M T S) (items : list A) :
  (forall acc x, emits P (f acc x)) ->
  forall acc, emits P (forEach f items acc).
Proof.
  intros Hf. induction items as [|x rest IH]; intros acc; simpl.
  - apply emits_ret.
  - apply emits_bind; [apply Hf | exact IH].
Qed.

Lemma emits_mapSeries P A B (f : A -> M T B) (items : list A) :
  (forall x, emits P (f x)) -> emits P (mapSeries f items).
Proof.
  intros Hf. induction items as [|x rest IH]; simpl.
  - apply emits_ret.
  - apply emits_bind; [apply Hf | intros y].
    apply emits_bind; [exact IH | intros ys; apply emits_ret].
Qed.

Lemma emits_readProp P A (t : Thrown T) (g : JsError T -> A) (d : A) :
  emits P (readProp t g d).
Proof.
  destruct t as [e|v]; simpl.
  - apply emits_ret.
  - destruct (isNil v); [apply emits_throw | apply emits_ret].
Qed.

Lemma emits_weaken (P Q : Event T -> Prop) A (m : M T A) :
  (forall ev, P ev -> Q ev) -> emits P m -> emits Q m.
Proof.
  intros HPQ Hm st o st' H.
  destruct (Hm _ _ _ H) as [evs [E F]].
  exists evs. split; [exact E|].
  eapply Forall_impl; [|exact F]. exact HPQ.
Qed.

(** *** The conflict check *)

Lemma forceoverwrite_withDefaultWait options :
  forceoverwrite (withDefaultWait X options) = forceoverwrite options.
Proof.
  unfold withDefaultWait. destruct (isNaN (wait options)); reflexivity.
Qed.

Lemma length_pos_nonempty A (l : list A) :
  l <> [] -> (0 <? List.length l)%nat = true.
Proof. destruct l; [congruence | reflexivity]. Qed.

(** C2: under forceoverwrite the conflict check resolves to the empty
    list at once, with no call at all; otherwise, when the status
    comparison yields at least one conflict, the pull throws the error
    named SourceConflict that carries the whole conflict list in
    [sourceConflictElements], and the only calls made are the three of the
    status check: no partitioning, no manifest, no retrieve. *)
Theorem conflict_check_gates_the_pull (options : Options) (st : State T) :
  (truthy (forceoverwrite options) = true ->
   _checkForConflicts X options st = (Ok (Some []), st))
  /\
  (truthy (forceoverwrite options) = false ->
   forall w1 w2 w3 conflicts,
     statusCreate X (world st) = (Ok tt, w1) ->
     doStatus X true true w1 = (Ok tt, w2) ->
     getLocalConflicts X w2 = (Ok conflicts, w3) ->
     conflicts <> [] ->
     doPull X options st =
     (Throw (ThrowErr (mkJsError "SourceConflict"
                         (JStr "Conflicts found during sync down")
                         JUndefined None (Some conflicts))),
      mkState w3
        (trace st ++ [EvStatusCreate; EvDoStatus true true;
                      EvGetLocalConflicts])
        (obsoleteNames st))).
Proof.
  split.
  - intros Hf. unfold _checkForConflicts. rewrite Hf. reflexivity.
  - intros Hf w1 w2 w3 conflicts Hc Hs Hl Hne.
    unfold doPull, _checkForConflicts.
    rewrite forceoverwrite_withDefaultWait, Hf.
    unfold bind, catch_, statusComparison, bind, call. simpl.
    rewrite Hc. simpl. rewrite Hs. simpl. rewrite Hl.
    rewrite (length_pos_nonempty _ conflicts Hne). simpl.
    unfold throw, sourceConflict.
    repeat rewrite <- app_assoc. reflexivity.
Qed.

(** *** The success predicate *)

Lemma bind_ext A B (m : M T A) (k k' : A -> M T B) st :
  (forall a st1, k a st1 = k' a st1) -> bind m k st = bind m k' st.
Proof.
  intros H. unfold bind. destruct (m st) as [[a|t] st1]; auto.
Qed.

Lemma didRetrieveSucceed_iff (res : option RetrieveResult) :
  _didRetrieveSucceed res = true <->
  exists r entries,
    res = Some r
    /\ truthy (success r) = true
    /\ status r = JStr "Succeeded"
    /\ isNil (messages r) = true
    /\ fileProperties r = FPArray entries.
Proof.
  split.
  - destruct res as [r|]; simpl; [|discriminate].
    intros H.
    apply andb_true_iff in H. destruct H as [H Hfp].
    apply andb_true_iff in H. destruct H as [H Hm].
    apply andb_true_iff in H. destruct H as [Hs Hst].
    destruct (fileProperties r) as [| |entries] eqn:Efp; try discriminate.
    exists r, entries. repeat split; auto.
    destruct (status r); simpl in Hst; try discriminate.
    apply String.eqb_eq in Hst. subst. reflexivity.
  - intros [r [entries [E [Hs [Hst [Hm Hfp]]]]]]. subst res. simpl.
    rewrite Hs, Hst, Hm, Hfp. reflexivity.
Qed.

(** C3 (as amended): a result counts as succeeded exactly when it is
    non-nil, its success flag is truthy, its status is the string
    "Succeeded", its messages field is nil (an empty list does not do) and
    its fileProperties are an array. Then the apply step runs, followed by
    the tracking calls, and [{ inboundFiles }] is what the step yields. A
    non-nil result that fails the predicate is answered by the error named
    RetrieveFailed, with no call made; a nil result is answered by
    [undefined], with no error and no call. *)
Theorem retrieve_outcome_by_success_predicate
        (res : option RetrieveResult) (options : Options) (st : State T) :
  (_didRetrieveSucceed res = true <->
   exists r entries,
     res = Some r
     /\ truthy (success r) = true
     /\ status r = JStr "Succeeded"
     /\ isNil (messages r) = true
     /\ fileProperties r = FPArray entries)
  /\ (forall r, res = Some r -> _didRetrieveSucceed res = true ->
      _postRetrieve X res options st =
      (changed <- _syncDownSource X r options ;;
       call (EvMaybeRefreshIndex (workspaceElementObjects X changed))
            (maybeRefreshIndex X (workspaceElementObjects X changed)) ;;;
       call (EvGetSourceMembersFromResult (workspaceElementObjects X changed))
            (getSourceMembersFromResult X
               (workspaceElementObjects X changed)) ;;;
       call EvUpdateSourceTracking (updateSourceTracking X) ;;;
       ret (Some (mkPullResult
                    (Some (workspaceElementObjects X changed))))) st)
  /\ (forall r, res = Some r -> _didRetrieveSucceed res = false ->
      _postRetrieve X res options st = (Throw (retrieveFailed X r), st)
      /\ thrownName (retrieveFailed X r) = Some "RetrieveFailed")
  /\ (res = None -> _postRetrieve X res options st = (Ok None, st)).
Proof.
  split; [apply didRetrieveSucceed_iff|].
  split; [|split].
  - intros r E H. subst res. unfold _postRetrieve. rewrite H.
    apply bind_ext. intros changed st1.
    apply bind_ext. intros _ st2.
    apply bind_ext. intros _ st3.
    apply bind_ext. intros _ st4.
    unfold _processResults. rewrite H. reflexivity.
  - intros r E H. subst res. unfold _postRetrieve. rewrite H.
    unfold _processResults. rewrite H. split; reflexivity.
  - intros E. subst res. reflexivity.
Qed.

(** *** Inverting a run *)

Lemma bind_Ok_inv A B (m : M T A) (k : A -> M T B) st b st' :
  bind m k st = (Ok b, st') ->
  exists a st1, m st = (Ok a, st1) /\ k a st1 = (Ok b, st').
Proof.
  unfold bind. destruct (m st) as [[a|t] st1]; intros H.
  - exists a, st1. auto.
  - discriminate.
Qed.

Lemma call_Ok_trace A ev (f : World T -> Outcome T A * World T) st a st' :
  call ev f st = (Ok a, st') -> trace st' = trace st ++ [ev].
Proof.
  unfold call. destruct (f (world st)) as [o w'].
  intros H. inversion H; subst. reflexivity.
Qed.

(** *** Calls and the obsolete names together *)

Lemma runs_ret P A (a : A) : runs (T:=T) P (ret a).
Proof.
  intros st o st' H. inversion H; subst. split; [reflexivity|].
  exists []. rewrite app_nil_r. auto.
Qed.

Lemma runs_throw P A (t : Thrown T) : runs P (throw (A:=A) t).
Proof.
  intros st o st' H. inversion H; subst. split; [reflexivity|].
  exists []. rewrite app_nil_r. auto.
Qed.

Lemma runs_getObsoleteNames P : runs (T:=T) P getObsoleteNames.
Proof.
  intros st o st' H. inversion H; subst. split; [reflexivity|].
  exists []. rewrite app_nil_r. auto.
Qed.

Lemma runs_call P A ev (f : World T -> Outcome T A * World T) :
  P ev -> runs P (call ev f).
Proof.
  intros Hev st o st' H. unfold call in H.
  destruct (f (world st)) as [o' w']. inversion H; subst.
  split; [reflexivity|]. exists [ev]. simpl. auto.
Qed.

Lemma runs_bind P A B (m : M T A) (k : A -> M T B) :
  runs P m -> (forall a, runs P (k a)) -> runs P (bind m k).
Proof.
  intros Hm Hk st o st' H. unfold bind in H.
  destruct (m st) as [[a|t] st1] eqn:E.
  - destruct (Hm _ _ _ E) as [O1 [evs1 [E1 F1]]].
    destruct (Hk a _ _ _ H) as [O2 [evs2 [E2 F2]]].
    split; [congruence|].
    exists (evs1 ++ evs2). rewrite E2, E1, app_assoc.
    split; [reflexivity | apply Forall_app; auto].
  - inversion H; subst. exact (Hm _ _ _ E).
Qed.

Lemma runs_catch P A (m : M T A) (h : Thrown T -> M T A) :
  runs P m -> (forall t, runs P (h t)) -> runs P (catch_ m h).
Proof.
  intros Hm Hh st o st' H. unfold catch_ in H.
  destruct (m st) as [[a|t] st1] eqn:E.
  - inversion H; subst. exact (Hm _ _ _ E).
  - destruct (Hm _ _ _ E) as [O1 [evs1 [E1 F1]]].
    destruct (Hh t _ _ _ H) as [O2 [evs2 [E2 F2]]].
    split; [congruence|].
    exists (evs1 ++ evs2). rewrite E2, E1, app_assoc.
    split; [reflexivity | apply Forall_app; auto].
Qed.

Lemma runs_forEach P A S (f : S -> A -> M T S) (items : list A) :
  (forall acc x, runs P (f acc x)) ->
  forall acc, runs P (forEach f items acc).
Proof.
  intros Hf. induction items as [|x rest IH]; intros acc; simpl.
  - apply runs_ret.
  - apply runs_bind; [apply Hf | exact IH].
Qed.

Lemma runs_mapSeries P A B (f : A -> M T B) (items : list A) :
  (forall x, runs P (f x)) -> runs P (mapSeries f items).
Proof.
  intros Hf. induction items as [|x rest IH]; simpl.
  - apply runs_ret.
  - apply runs_bind; [apply Hf | intros y].
    apply runs_bind; [exact IH | intros ys; apply runs_ret].
Qed.

Lemma runs_readProp P A (t : Thrown T) (g : JsError T -> A) (d : A) :
  runs P (readProp t g d).
Proof.
  destruct t as [e|v]; simpl.
  - apply runs_ret.
  - destruct (isNil v); [apply runs_throw | apply runs_ret].
Qed.

Lemma runs_weaken (P Q : Event T -> Prop) A (m : M T A) :
  (forall ev, P ev -> Q ev) -> runs P m -> runs Q m.
Proof.
  intros HPQ Hm st o st' H.
  destruct (Hm _ _ _ H) as [O [evs [E F]]].
  split; [exact O|]. exists evs. split; [exact E|].
  eapply Forall_impl; [|exact F]. exact HPQ.
Qed.

Ltac runs_auto :=
  repeat first
    [ apply runs_ret
    | apply runs_throw
    | apply runs_getObsoleteNames
    | apply runs_readProp
    | apply runs_call; simpl; auto
    | apply runs_bind; [|intros]
    | apply runs_catch; [|intros]
    | apply runs_forEach; intros
    | apply runs_mapSeries; intros
    | match goal with
      | |- runs _ (if ?b then _ else _) => destruct b
      | |- runs _ (match ?x with _ => _ end) => destruct x
      end ].

Lemma syncFileProperty_runs opts bundle changed fileProperty :
  runs (stepEvent opts)
       (syncFileProperty X (retrievetargetdir opts) bundle changed
                         fileProperty).
Proof.
  unfold syncFileProperty.
  destruct (String.eqb (fp_type fileProperty) "Package") eqn:E.
  - apply runs_ret.
  - apply runs_call. simpl. auto.
Qed.

Lemma syncDown_runs (r : RetrieveResult) (opts : Options) :
  runs (stepEvent opts) (_syncDownSource X r opts).
Proof.
  unfold _syncDownSource.
  destruct (fileProperties r) as [| |entries]; try apply runs_throw.
  apply runs_bind; [apply runs_call; exact I | intros bundle].
  apply runs_bind.
  - apply runs_forEach. intros acc x. apply syncFileProperty_runs.
  - intros changed. unfold syncObsoleteName. runs_auto.
Qed.

Lemma stepEvent_pullEvent options d (ev : Event T) :
  stepEvent (set_retrievetargetdir options (JStr d)) ev ->
  pullEvent options ev.
Proof.
  destruct ev; simpl; try tauto.
  - intros ->. eauto.
  - intros [-> H]. eauto.
  - intros [-> H]. eauto.
Qed.

Lemma syncFileProperty_before opts bundle changed fileProperty :
  runs (beforeCleanup opts)
       (syncFileProperty X (retrievetargetdir opts) bundle changed
                         fileProperty).
Proof.
  unfold syncFileProperty, beforeCleanup.
  destruct (String.eqb (fp_type fileProperty) "Package") eqn:E.
  - apply runs_ret.
  - apply runs_call. simpl. auto.
Qed.

Lemma syncDown_before (r : RetrieveResult) (opts : Options) :
  runs (beforeCleanup opts) (_syncDownSource X r opts).
Proof.
  unfold _syncDownSource.
  destruct (fileProperties r) as [| |entries]; try apply runs_throw.
  apply runs_bind; [apply runs_call; split; [exact I|reflexivity]
                   | intros bundle].
  apply runs_bind.
  - apply runs_forEach. intros acc x. apply syncFileProperty_before.
  - intros changed. unfold syncObsoleteName, beforeCleanup. runs_auto.
Qed.

Lemma packageResult_before (opts : Options) (pkg : option (Package T)) :
  runs (beforeCleanup opts) (packageResult X opts pkg).
Proof.
  unfold packageResult, _createPackageManifest, retrieveOrSkip,
    beforeCleanup.
  destruct pkg as [p|]; [|apply runs_throw].
  apply runs_bind; [runs_auto | intros manifest; runs_auto].
Qed.

Lemma postRetrieveBegins_before res opts st u st1 :
  postRetrieveBegins X res opts st = (u, st1) ->
  obsoleteNames st1 = obsoleteNames st
  /\ exists evs,
      trace st1 = trace st ++ evs /\ Forall (beforeCleanup opts) evs.
Proof.
  unfold postRetrieveBegins. intros H.
  destruct (_didRetrieveSucceed res); [destruct res as [r|]|].
  - destruct (_syncDownSource X r opts st) as [o st2] eqn:E.
    inversion H; subst. exact (syncDown_before _ _ _ _ _ E).
  - inversion H; subst. split; [reflexivity|].
    exists []. rewrite app_nil_r. auto.
  - inversion H; subst. split; [reflexivity|].
    exists []. rewrite app_nil_r. auto.
Qed.

Lemma postRetrieveGoesOn_tracking res opts u :
  runs (fun ev : Event T => isTracking ev = true)
       (postRetrieveGoesOn X res opts u).
Proof.
  unfold postRetrieveGoesOn, _processResults.
  destruct u as [|[changed|t]]; runs_auto.
Qed.

Lemma settle_tracking opts e :
  runs (fun ev : Event T => isTracking ev = true) (settle X opts e).
Proof.
  destruct e as [t|res u]; simpl.
  - apply runs_throw.
  - apply postRetrieveGoesOn_tracking.
Qed.

(** [_postRetrieve], followed to its end, is its beginning and then its
    going on. *)
Lemma postRetrieve_in_two_parts res opts st :
  _postRetrieve X res opts st
  = (let (u, st1) := postRetrieveBegins X res opts st in
     postRetrieveGoesOn X res opts u st1).
Proof.
  unfold _postRetrieve, postRetrieveBegins.
  destruct (_didRetrieveSucceed res); [destruct res as [r|]|];
    try reflexivity.
  unfold bind at 1.
  destruct (_syncDownSource X r opts st) as [[changed|t] st1]; reflexivity.
Qed.

(** The [try] block with its promise followed to the end is its part for
    the result and then [_postRetrieve]. *)
Lemma retrievePackage_by_result opts pkg st :
  retrievePackage X opts pkg st
  = (res <- packageResult X opts pkg ;; _postRetrieve X res opts) st.
Proof.
  unfold retrievePackage, packageResult.
  destruct pkg as [p|]; [|reflexivity].
  unfold bind.
  destruct (_createPackageManifest X opts (retrievetargetdir opts) p st)
    as [[manifest|t] st1]; reflexivity.
Qed.

(** A package step whose temp directory was made, by the end of its [try]
    block's part for the result. *)
Lemma pullPackage_from_result options packages pkgName st w1 dir w2 :
  setActivePackage X pkgName (world st) = (Ok tt, w1) ->
  createOutputDir X w1 = (Ok dir, w2) ->
  pullPackage X options packages pkgName st
  = match packageResult X (set_retrievetargetdir options (JStr dir))
            (lookupPackage pkgName packages)
            (mkState w2
               (trace st ++ [EvSetActivePackage pkgName; EvCreateOutputDir])
               (obsoleteNames st)) with
    | (Ok res, st3) =>
        returnAndCleanUp X (set_retrievetargetdir options (JStr dir)) res st3
    | (Throw t, st3) =>
        (match fst (cleanupOutputDir X (JStr dir) (world st3)) with
         | Ok _ => Throw t
         | Throw t' => Throw t'
         end,
         mkState (snd (cleanupOutputDir X (JStr dir) (world st3)))
                 (trace st3 ++ [EvCleanupOutputDir (JStr dir)])
                 (obsoleteNames st3))
    end.
Proof.
  intros Ha Hd. unfold pullPackage. unfold bind at 1. unfold call at 1.
  rewrite Ha. unfold packageTry. unfold call at 1. simpl. rewrite Hd.
  simpl. rewrite <- app_assoc. simpl.
  destruct (packageResult X (set_retrievetargetdir options (JStr dir))
              (lookupPackage pkgName packages)
              (mkState w2
                 (trace st ++ [EvSetActivePackage pkgName; EvCreateOutputDir])
                 (obsoleteNames st))) as [[res|t] st3].
  - unfold returnAndCleanUp.
    destruct (postRetrieveBegins X res
                (set_retrievetargetdir options (JStr dir)) st3) as [u st4].
    reflexivity.
  - unfold call. simpl.
    destruct (cleanupOutputDir X (JStr dir) (world st3)) as [[u|t'] w3];
      reflexivity.
Qed.

Lemma returnAndCleanUp_calls opts res st o st' :
  returnAndCleanUp X opts res st = (o, st') ->
  obsoleteNames st' = obsoleteNames st
  /\ exists before after,
      trace st'
      = trace st ++ before ++ [EvCleanupOutputDir (retrievetargetdir opts)]
          ++ after
      /\ Forall (beforeCleanup opts) before
      /\ Forall (fun ev => isTracking ev = true) after.
Proof.
  unfold returnAndCleanUp. intros H.
  destruct (postRetrieveBegins X res opts st) as [u st1] eqn:Eb.
  destruct (postRetrieveBegins_before _ _ _ _ _ Eb) as [O1 [before [T1 F1]]].
  unfold call in H.
  destruct (cleanupOutputDir X (retrievetargetdir opts) (world st1))
    as [cleaned w2].
  match type of H with
  | (let (_, _) := postRetrieveGoesOn X res opts u ?s in _) = _ =>
      destruct (postRetrieveGoesOn X res opts u s) as [o3 st3] eqn:Eg
  end.
  destruct (postRetrieveGoesOn_tracking _ _ _ _ _ _ Eg)
    as [O3 [after [T3 F3]]].
  simpl in O3, T3. inversion H; subst.
  split; [congruence|]. exists before, after.
  split; [|auto]. rewrite T3, T1. repeat rewrite <- app_assoc. reflexivity.
Qed.

(** The calls of a package step whose temp directory was made. *)
Lemma pullPackage_with_dir options packages pkgName st w1 dir w2 o st' :
  setActivePackage X pkgName (world st) = (Ok tt, w1) ->
  createOutputDir X w1 = (Ok dir, w2) ->
  pullPackage X options packages pkgName st = (o, st') ->
  obsoleteNames st' = obsoleteNames st
  /\ exists before after,
      trace st'
      = trace st ++ [EvSetActivePackage pkgName; EvCreateOutputDir]
          ++ before ++ [EvCleanupOutputDir (JStr dir)] ++ after
      /\ Forall (beforeCleanup (set_retrievetargetdir options (JStr dir)))
                before
      /\ Forall (fun ev => isTracking ev = true) after.
Proof.
  intros Ha Hd H. rewrite (pullPackage_from_result _ _ _ _ _ _ _ Ha Hd) in H.
  destruct (packageResult X (set_retrievetargetdir options (JStr dir))
              (lookupPackage pkgName packages)
              (mkState w2
                 (trace st ++ [EvSetActivePackage pkgName; EvCreateOutputDir])
                 (obsoleteNames st))) as [[res|t] st3] eqn:E;
    destruct (packageResult_before _ _ _ _ _ E) as [O1 [evs1 [T1 F1]]];
    simpl in O1, T1.
  - destruct (returnAndCleanUp_calls _ _ _ _ _ H)
      as [O2 [before [after [T2 [F2 F3]]]]].
    split; [congruence|]. exists (evs1 ++ before), after.
    split; [|split; [apply Forall_app; auto | exact F3]].
    rewrite T2, T1. simpl. repeat rewrite <- app_assoc. reflexivity.
  - inversion H; subst. simpl. split; [exact O1|].
    exists evs1, []. split; [|auto].
    rewrite T1. repeat rewrite <- app_assoc. reflexivity.
Qed.

(** The calls of one package step, spelled out by the way the step ends. *)
Lemma pullPackage_shape options packages pkgName st o st' :
  pullPackage X options packages pkgName st = (o, st') ->
  obsoleteNames st' = obsoleteNames st
  /\ ((trace st' = trace st ++ [EvSetActivePackage pkgName])
      \/ (trace st'
          = trace st ++ [EvSetActivePackage pkgName; EvCreateOutputDir;
                         EvCleanupOutputDir (retrievetargetdir options)])
      \/ (exists dir before after,
             trace st'
             = trace st ++ [EvSetActivePackage pkgName; EvCreateOutputDir]
                 ++ before ++ [EvCleanupOutputDir (JStr dir)] ++ after
             /\ Forall (beforeCleanup
                          (set_retrievetargetdir options (JStr dir))) before
             /\ Forall (fun ev => isTracking ev = true) after)).
Proof.
  intros H.
  destruct (setActivePackage X pkgName (world st)) as [[[]|t] w0] eqn:Ha.
  - destruct (createOutputDir X w0) as [[dir|t] w1] eqn:Hd.
    + destruct (pullPackage_with_dir _ _ _ _ _ _ _ _ _ Ha Hd H)
        as [O [before [after [Tr [F1 F2]]]]].
      split; [exact O|]. right; right. exists dir, before, after. auto.
    + unfold pullPackage in H. unfold bind at 1 in H.
      unfold call at 1 in H. rewrite Ha in H.
      unfold packageTry in H. unfold call at 1 in H. simpl in H.
      rewrite Hd in H. simpl in H. unfold call in H. simpl in H.
      destruct (cleanupOutputDir X (retrievetargetdir options) w1)
        as [[u'|t'] w3];
        inversion H; subst; simpl;
        (split; [reflexivity|]); right; left;
        repeat rewrite <- app_assoc; reflexivity.
  - unfold pullPackage in H. unfold bind at 1 in H.
    unfold call at 1 in H. rewrite Ha in H.
    inversion H; subst; simpl; auto.
Qed.

Lemma tracking_pullEvent options (ev : Event T) :
  isTracking ev = true -> pullEvent options ev.
Proof. destruct ev; simpl; try discriminate; auto. Qed.

Lemma pullPackage_runs options packages pkgName :
  runs (pullEvent options) (pullPackage X options packages pkgName).
Proof.
  intros st o st' H.
  destruct (pullPackage_shape _ _ _ _ _ _ H)
    as [O [E|[E|[dir [before [after [E [F1 F2]]]]]]]];
    (split; [exact O|]); eexists; (split; [exact E|]).
  - repeat constructor.
  - repeat constructor.
  - repeat (apply Forall_app; split); try (repeat constructor).
    + eapply Forall_impl; [|exact F1].
      intros ev [Hs _]. exact (stepEvent_pullEvent _ _ _ Hs).
    + eapply Forall_impl; [|exact F2]. apply tracking_pullEvent.
Qed.

Lemma pullEvent_persistEvent options (ev : Event T) :
  pullEvent options ev -> persistEvent options ev.
Proof. destruct ev; simpl; tauto. Qed.

Lemma checkForConflicts_runs options :
  runs statusEvent (_checkForConflicts X options).
Proof.
  unfold _checkForConflicts, statusComparison, statusFailed. runs_auto.
Qed.

Lemma revisionsAsPackage_trace st o st' :
  revisionsAsPackage X st = (o, st') ->
  trace st' = trace st ++ [EvGetRevisionsAsPackage (obsoleteNames st)].
Proof.
  unfold revisionsAsPackage.
  destruct (getRevisionsAsPackage X (obsoleteNames st) (world st))
    as [[[packages obsolete]|t] w']; intros H; inversion H; reflexivity.
Qed.

Lemma runs_emits (P : Event T -> Prop) A (m : M T A) :
  runs P m -> emits P m.
Proof. intros Hm st o st' H. exact (proj2 (Hm _ _ _ H)). Qed.

Lemma pullPackages_emits options :
  emits (pullEvent options) (pullPackages X options).
Proof.
  unfold pullPackages. apply emits_bind.
  - intros st o st' H. eexists.
    split; [exact (revisionsAsPackage_trace _ _ _ H)|].
    repeat constructor.
  - intros packages. apply emits_bind.
    + apply emits_mapSeries. intros x.
      apply runs_emits, pullPackage_runs.
    + intros results. apply emits_bind.
      * apply emits_call. exact I.
      * intros _. apply emits_ret.
Qed.

Lemma wait_withDefaultWait options :
  wait (withDefaultWait X options)
  = (if isNaN (wait options) then defaultSrcWaitMinutes X else wait options).
Proof.
  unfold withDefaultWait. destruct (isNaN (wait options)); reflexivity.
Qed.

(** Each call of a pull is a call of the conflict check or one of the
    calls after it. *)
Lemma doPull_calls options :
  emits (fun ev => statusEvent ev \/ pullEvent (withDefaultWait X options) ev)
        (doPull X options).
Proof.
  unfold doPull. apply emits_bind.
  - eapply emits_weaken; [|apply runs_emits, checkForConflicts_runs].
    intros ev H. left. exact H.
  - intros _. eapply emits_weaken; [|apply pullPackages_emits].
    intros ev H. right. exact H.
Qed.

Lemma returnAndCleanUp_nothing opts st :
  returnAndCleanUp X opts None st
  = (match fst (cleanupOutputDir X (retrievetargetdir opts) (world st)) with
     | Ok _ => Ok None
     | Throw t => Throw t
     end,
     mkState (snd (cleanupOutputDir X (retrievetargetdir opts) (world st)))
             (trace st ++ [EvCleanupOutputDir (retrievetargetdir opts)])
             (obsoleteNames st)).
Proof.
  unfold returnAndCleanUp, postRetrieveBegins, call. simpl.
  destruct (cleanupOutputDir X (retrievetargetdir opts) (world st))
    as [[u|t] w']; reflexivity.
Qed.

(** *** Retrieve or skip *)

(** C4 (as amended): with an empty manifest the gateway is not called.
    If there are no obsolete names either, no result is made up: [result]
    stays [undefined], nothing is applied, and the step cleans up and
    yields [undefined]. If there are obsolete names, the succeeded-empty
    result is made up and the step goes on with it. Only with a non-empty
    manifest is the gateway called, once, with the temp directory of the
    package, the manifest file and the wait, which is the caller's wait or
    else the configured default, as it is in every retrieve call of a
    pull; the step then goes on with what the gateway resolved to or with
    the [result] carried by what it rejected with. *)
Theorem retrieve_or_skip_by_manifest (options : Options) :
  (forall st o st',
      doPull X options st = (o, st') ->
      exists evs,
        trace st' = trace st ++ evs
        /\ Forall (fun ev =>
                     match ev with
                     | EvRetrieve ro =>
                         ro_wait ro
                         = (if isNaN (wait options)
                            then defaultSrcWaitMinutes X
                            else wait options)
                     | _ => True
                     end) evs)
  /\ (forall packages pkgName p st w1 dir w2 manifest st3,
         setActivePackage X pkgName (world st) = (Ok tt, w1) ->
         createOutputDir X w1 = (Ok dir, w2) ->
         lookupPackage pkgName packages = Some p ->
         _createPackageManifest X
           (set_retrievetargetdir (withDefaultWait X options) (JStr dir))
           (JStr dir) p
           (mkState w2
              (trace st ++ [EvSetActivePackage pkgName; EvCreateOutputDir])
              (obsoleteNames st))
         = (Ok manifest, st3) ->
         (truthy (m_empty manifest) = true -> obsoleteNames st3 = [] ->
          pullPackage X (withDefaultWait X options) packages pkgName st
          = (match fst (cleanupOutputDir X (JStr dir) (world st3)) with
             | Ok _ => Ok None
             | Throw t => Throw t
             end,
             mkState (snd (cleanupOutputDir X (JStr dir) (world st3)))
                     (trace st3 ++ [EvCleanupOutputDir (JStr dir)])
                     (obsoleteNames st3)))
         /\ (truthy (m_empty manifest) = true -> obsoleteNames st3 <> [] ->
             pullPackage X (withDefaultWait X options) packages pkgName st
             = returnAndCleanUp X
                 (set_retrievetargetdir (withDefaultWait X options) (JStr dir))
                 (Some succeededEmpty) st3)
         /\ (truthy (m_empty manifest) = false ->
             forall o w',
               retrieve X
                 (mkRetrieveOptions (JStr dir) (m_file manifest)
                    (if isNaN (wait options) then defaultSrcWaitMinutes X
                     else wait options))
                 (world st3) = (o, w') ->
               pullPackage X (withDefaultWait X options) packages pkgName st
               = (match o with
                  | Ok r =>
                      returnAndCleanUp X
                        (set_retrievetargetdir (withDefaultWait X options)
                           (JStr dir)) r
                  | Throw (ThrowErr e) =>
                      returnAndCleanUp X
                        (set_retrievetargetdir (withDefaultWait X options)
                           (JStr dir)) (result e)
                  | Throw (ThrowVal v) =>
                      if isNil v then
                        fun s =>
                          (match fst (cleanupOutputDir X (JStr dir) (world s))
                           with
                           | Ok _ => Throw typeError
                           | Throw t => Throw t
                           end,
                           mkState
                             (snd (cleanupOutputDir X (JStr dir) (world s)))
                             (trace s ++ [EvCleanupOutputDir (JStr dir)])
                             (obsoleteNames s))
                      else
                        returnAndCleanUp X
                          (set_retrievetargetdir (withDefaultWait X options)
                             (JStr dir)) None
                  end)
                   (mkState w'
                      (trace st3
                       ++ [EvRetrieve
                             (mkRetrieveOptions (JStr dir) (m_file manifest)
                                (if isNaN (wait options)
                                 then defaultSrcWaitMinutes X
                                 else wait options))])
                      (obsoleteNames st3)))).
Proof.
  split.
  - intros st o st' H.
    destruct (doPull_calls _ _ _ _ H) as [evs [E F]].
    exists evs. split; [exact E|].
    eapply Forall_impl; [|exact F].
    intros ev [Hs|Hp]; destruct ev; simpl in *; try tauto.
    rewrite <- wait_withDefaultWait. tauto.
  - intros packages pkgName p st w1 dir w2 manifest st3 Ha Hd Hl Hm.
    pose proof (pullPackage_from_result (withDefaultWait X options)
                  packages pkgName st w1 dir w2 Ha Hd) as E.
    unfold packageResult in E. rewrite Hl in E. unfold bind at 1 in E.
    simpl retrievetargetdir in E. rewrite Hm in E.
    unfold retrieveOrSkip in E.
    cbn [wait retrievetargetdir set_retrievetargetdir] in E.
    rewrite wait_withDefaultWait in E.
    split; [|split].
    + intros He Ho. rewrite He in E. unfold bind, getObsoleteNames in E.
      rewrite Ho in E. simpl in E. rewrite E.
      apply returnAndCleanUp_nothing.
    + intros He Ho. rewrite He in E. unfold bind, getObsoleteNames in E.
      rewrite (length_pos_nonempty _ _ Ho) in E. exact E.
    + intros He o w' Hr. rewrite He in E. unfold catch_, call in E.
      rewrite Hr in E. rewrite E.
      destruct o as [r|[e|v]]; simpl; try reflexivity.
      destruct (isNil v); reflexivity.
Qed.

(** *** Obsolete names *)

Lemma forEach_names_handled w acc names given changed w' :
  NamesHandled X w acc names given changed w' ->
  forall tr ob,
    forEach (syncObsoleteName X) names acc (mkState w tr ob)
    = (Ok changed, mkState w' (tr ++ obsoleteCalls given names) ob).
Proof.
  induction 1 as [w acc | w acc o rest a w1 given changed w' Hcall _ IH];
    intros tr ob; simpl.
  - rewrite app_nil_r. reflexivity.
  - unfold bind, syncObsoleteName, call. simpl. rewrite Hcall.
    rewrite IH. rewrite <- app_assoc. reflexivity.
Qed.

(** C5: for a package with nothing to retrieve while obsolete names
    exist, the pull makes up a succeeded result with no file properties
    and the step of the package applies it: after the definition mapping
    of the empty list, [handleObsoleteSource] is called once for every
    obsolete name, in order, the first call on a new aggregate and each
    later call on the aggregate that the call before it returned; the
    aggregate that the last call returned is the one handed to the persist
    call, and the workspace elements of the aggregate that the persist
    call returns are the inbound files of the step. *)
Theorem empty_package_still_drops_obsolete_names
        (options : Options) (packages : list (string * Package T))
        (pkgName : string) (p : Package T) (st : State T)
        (w1 w2 w3 : World T) (dir : string)
        (given : list (Aggregate T)) (changed : Aggregate T) :
  setActivePackage X pkgName (world st) = (Ok tt, w1) ->
  createOutputDir X w1 = (Ok dir, w2) ->
  lookupPackage pkgName packages = Some p ->
  isEmpty X p = true ->
  obsoleteNames st <> [] ->
  NamesHandled X w2 (newAggregate X) (obsoleteNames st) given changed w3 ->
  retrieveOrSkip X (set_retrievetargetdir options (JStr dir))
    (mkManifest (JBool true) JUndefined)
    (mkState w2 (trace st ++ [EvSetActivePackage pkgName; EvCreateOutputDir])
             (obsoleteNames st))
  = (Ok (Some succeededEmpty),
     mkState w2 (trace st ++ [EvSetActivePackage pkgName; EvCreateOutputDir])
             (obsoleteNames st))
  /\ fileProperties succeededEmpty = FPArray []
  /\ pullPackage X options packages pkgName st
     = returnAndCleanUp X (set_retrievetargetdir options (JStr dir))
         (Some succeededEmpty)
         (mkState w2
            (trace st ++ [EvSetActivePackage pkgName; EvCreateOutputDir])
            (obsoleteNames st))
  /\ postRetrieveBegins X (Some succeededEmpty)
       (set_retrievetargetdir options (JStr dir))
       (mkState w2
          (trace st ++ [EvSetActivePackage pkgName; EvCreateOutputDir])
          (obsoleteNames st))
     = (ApplyMade
          (fst (updateSource X changed (manifest options) false
                  (unsupportedMimeTypes options) (forceoverwrite options)
                  w3)),
        mkState
          (snd (updateSource X changed (manifest options) false
                  (unsupportedMimeTypes options) (forceoverwrite options)
                  w3))
          (trace st
           ++ [EvSetActivePackage pkgName; EvCreateOutputDir]
           ++ EvGetDefinitionProperties []
           :: obsoleteCalls given (obsoleteNames st)
           ++ [EvUpdateSource changed (manifest options) false
                 (unsupportedMimeTypes options) (forceoverwrite options)])
          (obsoleteNames st))
  /\ (forall returned s,
         postRetrieveGoesOn X (Some succeededEmpty)
           (set_retrievetargetdir options (JStr dir))
           (ApplyMade (Ok returned)) s
         = (call (EvMaybeRefreshIndex (workspaceElementObjects X returned))
                 (maybeRefreshIndex X (workspaceElementObjects X returned)) ;;;
            call (EvGetSourceMembersFromResult
                    (workspaceElementObjects X returned))
                 (getSourceMembersFromResult X
                    (workspaceElementObjects X returned)) ;;;
            call EvUpdateSourceTracking (updateSourceTracking X) ;;;
            ret (Some (mkPullResult
                         (Some (workspaceElementObjects X returned))))) s).
Proof.
  intros Ha Hd Hl Hp Ho Hn.
  assert (Er : retrieveOrSkip X (set_retrievetargetdir options (JStr dir))
                 (mkManifest (JBool true) JUndefined)
                 (mkState w2
                    (trace st ++ [EvSetActivePackage pkgName;
                                  EvCreateOutputDir])
                    (obsoleteNames st))
               = (Ok (Some succeededEmpty),
                  mkState w2
                    (trace st ++ [EvSetActivePackage pkgName;
                                  EvCreateOutputDir])
                    (obsoleteNames st))).
  { unfold retrieveOrSkip. simpl. unfold bind, getObsoleteNames. simpl.
    rewrite (length_pos_nonempty _ _ Ho). reflexivity. }
  split; [exact Er|]. split; [reflexivity|]. split; [|split].
  - rewrite (pullPackage_from_result _ _ _ _ _ _ _ Ha Hd).
    unfold packageResult. rewrite Hl. unfold bind at 1.
    unfold _createPackageManifest. rewrite Hp. unfold ret at 1.
    rewrite Er. reflexivity.
  - unfold postRetrieveBegins. simpl _didRetrieveSucceed. cbv iota.
    unfold _syncDownSource. simpl fileProperties. cbv iota.
    unfold bind at 1. unfold call at 1. simpl.
    unfold bind at 1. unfold ret at 1.
    unfold bind at 1. unfold getObsoleteNames at 1. simpl.
    unfold bind at 1. rewrite (forEach_names_handled _ _ _ _ _ _ Hn).
    unfold call. simpl.
    destruct (updateSource X changed (manifest options) false
                (unsupportedMimeTypes options) (forceoverwrite options) w3)
      as [o w4].
    simpl. repeat rewrite <- app_assoc. reflexivity.
  - intros returned s. unfold postRetrieveGoesOn.
    apply bind_ext. intros _ s1. apply bind_ext. intros _ s2.
    apply bind_ext. intros _ s3. reflexivity.
Qed.

(** *** The calls of the apply step and of a package *)

Ltac emits_auto :=
  repeat first
    [ apply emits_ret
    | apply emits_throw
    | apply emits_getObsoleteNames
    | apply emits_readProp
    | apply emits_call; simpl; auto
    | apply emits_bind; [|intros]
    | apply emits_catch; [|intros]
    | apply emits_forEach; intros
    | apply emits_mapSeries; intros
    | match goal with
      | |- emits _ (if ?b then _ else _) => destruct b
      | |- emits _ (match ?x with _ => _ end) => destruct x
      end ].

Lemma syncDown_calls (r : RetrieveResult) (opts : Options) st o st' :
  _syncDownSource X r opts st = (o, st') ->
  match fileProperties r with
  | FPArray entries =>
      exists evs,
        trace st' = trace st ++ EvGetDefinitionProperties entries :: evs
        /\ Forall (syncEvent X opts entries) evs
  | _ => trace st' = trace st
  end.
Proof.
  unfold _syncDownSource.
  destruct (fileProperties r) as [| |entries]; intros H;
    try (inversion H; subst; reflexivity).
  unfold bind at 1 in H. unfold call at 1 in H. simpl in H.
  assert (E : emits (syncEvent X opts entries)
                (changed <-
                   forEach (syncFileProperty X (retrievetargetdir opts)
                              (getDefinitionProperties X entries))
                           entries (newAggregate X) ;;
                 obsolete <- getObsoleteNames ;;
                 changed' <- forEach (syncObsoleteName X) obsolete changed ;;
                 call (EvUpdateSource changed' (manifest opts) false
                         (unsupportedMimeTypes opts) (forceoverwrite opts))
                      (updateSource X changed' (manifest opts) false
                         (unsupportedMimeTypes opts)
                         (forceoverwrite opts)))).
  { unfold syncFileProperty, syncObsoleteName. emits_auto. }
  destruct (E _ _ _ H) as [evs [Ht Hf]]. simpl in Ht.
  exists evs. split; [|exact Hf].
  rewrite Ht, <- app_assoc. reflexivity.
Qed.

(** *** Cleanup of the temp directory *)

Lemma beforeCleanup_filters opts (evs : list (Event T)) :
  Forall (beforeCleanup opts) evs ->
  filter isCleanup evs = [] /\ existsb isTracking evs = false.
Proof.
  induction 1 as [|ev evs [Hs Ht] _ [IH1 IH2]]; [split; reflexivity|].
  simpl. rewrite IH1, IH2, Ht. split; [|reflexivity].
  destruct ev; simpl in *; tauto.
Qed.

Lemma tracking_filters (evs : list (Event T)) :
  Forall (fun ev => isTracking ev = true) evs ->
  filter isCleanup evs = [] /\ forallb isTracking evs = true.
Proof.
  induction 1 as [|ev evs Ht _ [IH1 IH2]]; [split; reflexivity|].
  simpl. rewrite IH1, IH2, Ht. split; [|reflexivity].
  destruct ev; simpl in *; try discriminate; reflexivity.
Qed.

(** C9: once the temp directory of a package exists, the step removes it
    exactly once, however the [try] block ends: with the promise of a
    successful apply, with RetrieveFailed after a failed retrieve, or with
    whatever the apply step threw. The one cleanup call comes after every
    call that the [try] block made and ahead of the three tracking calls,
    which the returned promise makes afterwards; the step settles only
    after it. *)
Theorem temp_dir_removed_once_on_every_exit
        (options : Options) (packages : list (string * Package T))
        (pkgName : string) (st : State T)
        (w1 w2 : World T) (dir : string)
        (o : Outcome T (option (PullResult T))) (st' : State T) :
  setActivePackage X pkgName (world st) = (Ok tt, w1) ->
  createOutputDir X w1 = (Ok dir, w2) ->
  pullPackage X options packages pkgName st = (o, st') ->
  exists before after,
    trace st'
    = trace st ++ [EvSetActivePackage pkgName; EvCreateOutputDir]
        ++ before ++ [EvCleanupOutputDir (JStr dir)] ++ after
    /\ filter isCleanup
         ([EvSetActivePackage pkgName; EvCreateOutputDir]
          ++ before ++ [EvCleanupOutputDir (JStr dir)] ++ after)
       = [EvCleanupOutputDir (JStr dir)]
    /\ existsb isTracking before = false
    /\ forallb isTracking after = true.
Proof.
  intros Ha Hd H.
  destruct (pullPackage_with_dir _ _ _ _ _ _ _ _ _ Ha Hd H)
    as [_ [before [after [Tr [F1 F2]]]]].
  destruct (beforeCleanup_filters _ _ F1) as [C1 K1].
  destruct (tracking_filters _ F2) as [C2 K2].
  exists before, after. split; [exact Tr|]. split; [|auto].
  simpl. rewrite filter_app. simpl. rewrite C1, C2. reflexivity.
Qed.

(** *** The persist call *)

Lemma persistEvent_retrievetargetdir options d (ev : Event T) :
  persistEvent (set_retrievetargetdir options d) ev -> persistEvent options ev.
Proof. destruct ev; simpl; tauto. Qed.

Lemma persistEvent_withDefaultWait options (ev : Event T) :
  persistEvent (withDefaultWait X options) ev -> persistEvent options ev.
Proof.
  unfold withDefaultWait. destruct (isNaN (wait options)); [|tauto].
  destruct ev; simpl; tauto.
Qed.

Lemma pullPackage_emits options packages pkgName :
  emits (persistEvent options) (pullPackage X options packages pkgName).
Proof.
  eapply emits_weaken; [|apply runs_emits, pullPackage_runs].
  apply pullEvent_persistEvent.
Qed.

Lemma revisionsAsPackage_emits options :
  emits (persistEvent options) (revisionsAsPackage X).
Proof.
  intros st o st' H. unfold revisionsAsPackage in H.
  destruct (getRevisionsAsPackage X (obsoleteNames st) (world st))
    as [[[packages obsolete]|t] w']; inversion H; subst; simpl;
    exists [EvGetRevisionsAsPackage (obsoleteNames st)];
    (split; [reflexivity | repeat constructor]).
Qed.

Lemma doPull_emits options :
  emits (persistEvent options) (doPull X options).
Proof.
  unfold doPull, pullPackages.
  apply emits_bind.
  - unfold _checkForConflicts, statusComparison, statusFailed. emits_auto.
  - intros _. apply emits_bind; [apply revisionsAsPackage_emits|].
    intros packages. apply emits_bind.
    + apply emits_mapSeries. intros pkgName.
      eapply emits_weaken; [|apply pullPackage_emits].
      apply persistEvent_withDefaultWait.
    + intros results. emits_auto.
Qed.

Lemma not_persist_filter (evs : list (Event T)) :
  Forall (fun ev => isPersist ev = false) evs -> filter isPersist evs = [].
Proof.
  induction 1 as [|ev evs Hev _ IH]; [reflexivity|].
  simpl. rewrite Hev. exact IH.
Qed.

(** C7: an apply that runs to its end makes exactly one persist call, as
    its last call, and that call asks for no duplicate check (the
    check-for-duplicates argument is [false]) and carries the manifest,
    the unsupported-mime-type value and the force-overwrite value of the
    options as they are. Throughout a pull, every persist call skips the
    duplicate check and carries the two flags of the caller's options. *)
Theorem persist_skips_duplicate_check :
  (forall r opts st agg st',
      _syncDownSource X r opts st = (Ok agg, st') ->
      exists evs changed,
        trace st'
        = trace st ++ evs
            ++ [EvUpdateSource changed (manifest opts) false
                  (unsupportedMimeTypes opts) (forceoverwrite opts)]
        /\ filter isPersist evs = [])
  /\ (forall options st o st',
         doPull X options st = (o, st') ->
         exists evs,
           trace st' = trace st ++ evs
           /\ Forall (persistEvent options) evs).
Proof.
  split; [|intros options; apply doPull_emits].
  intros r opts st agg st' H. unfold _syncDownSource in H.
  destruct (fileProperties r) as [| |entries]; try discriminate.
  apply bind_Ok_inv in H. destruct H as [bundle [s1 [H1 H]]].
  apply bind_Ok_inv in H. destruct H as [changed [s2 [H2 H]]].
  apply bind_Ok_inv in H. destruct H as [obsolete [s3 [H3 H]]].
  apply bind_Ok_inv in H. destruct H as [changed' [s4 [H4 H]]].
  apply call_Ok_trace in H.
  assert (E1 : emits (fun ev : Event T => isPersist ev = false)
                 (call (EvGetDefinitionProperties entries)
                    (fun w => (Ok (getDefinitionProperties X entries), w))))
    by emits_auto.
  assert (E2 : emits (fun ev : Event T => isPersist ev = false)
                 (forEach (syncFileProperty X (retrievetargetdir opts) bundle)
                          entries (newAggregate X)))
    by (unfold syncFileProperty; emits_auto).
  assert (E3 : emits (T:=T) (fun ev : Event T => isPersist ev = false)
                 getObsoleteNames) by emits_auto.
  assert (E4 : emits (fun ev : Event T => isPersist ev = false)
                 (forEach (syncObsoleteName X) obsolete changed))
    by (unfold syncObsoleteName; emits_auto).
  destruct (E1 _ _ _ H1) as [v1 [T1 F1]].
  destruct (E2 _ _ _ H2) as [v2 [T2 F2]].
  destruct (E3 _ _ _ H3) as [v3 [T3 F3]].
  destruct (E4 _ _ _ H4) as [v4 [T4 F4]].
  exists (v1 ++ v2 ++ v3 ++ v4), changed'. split.
  - rewrite H, T4, T3, T2, T1. repeat rewrite <- app_assoc. reflexivity.
  - apply not_persist_filter. repeat (apply Forall_app; split); assumption.
Qed.

(** *** The definition mapping of bundles *)

Lemma find_unique A (f : A -> bool) (l : list A) (d : A) :
  In d l -> f d = true ->
  (forall x, In x l -> f x = true -> x = d) ->
  find f l = Some d.
Proof.
  induction l as [|x rest IH]; intros Hin Hd Huniq; [contradiction|].
  simpl. destruct (f x) eqn:E.
  - f_equal. apply Huniq; [left; reflexivity | exact E].
  - destruct Hin as [->|Hin]; [congruence|].
    apply IH; auto. intros y Hy. apply Huniq. right. exact Hy.
Qed.

Lemma owningDefinition_unique entries s d :
  In d entries ->
  isDefinitionFile X d = true ->
  sameBundle X d s = true ->
  (forall d', In d' entries -> isDefinitionFile X d' = true ->
              sameBundle X d' s = true -> d' = d) ->
  owningDefinition X entries s = Some d.
Proof.
  intros Hin Hdef Hsame Huniq. unfold owningDefinition.
  apply find_unique.
  - exact Hin.
  - rewrite Hdef, Hsame. reflexivity.
  - intros x Hx Hf. apply andb_true_iff in Hf. destruct Hf as [H1 H2].
    apply Huniq; assumption.
Qed.

(** C8: the apply step computes the definition mapping exactly once,
    from the whole list of file properties as received and before it
    processes any file, and every per-file call is handed that one
    mapping. In the mapping, each file of a bundle whose definition file
    is in the batch is attributed to that definition file, and so is the
    definition file itself, in whatever order the files of the batch
    come. *)
Theorem bundle_mapping_once_for_all_files :
  (forall r opts entries st o st',
      fileProperties r = FPArray entries ->
      _syncDownSource X r opts st = (o, st') ->
      exists evs,
        trace st' = trace st ++ EvGetDefinitionProperties entries :: evs
        /\ Forall (fun ev =>
                     match ev with
                     | EvGetDefinitionProperties _ => False
                     | EvProcessMdapiFileProperty _ _ _ bundle =>
                         bundle = getDefinitionProperties X entries
                     | _ => True
                     end) evs)
  /\ (forall entries entries' s d,
         Permutation entries entries' ->
         In s entries -> In d entries ->
         isDefinitionFile X d = true ->
         sameBundle X d s = true ->
         sameBundle X d d = true ->
         (forall d', In d' entries -> isDefinitionFile X d' = true ->
                     sameBundle X d' s = true \/ sameBundle X d' d = true ->
                     d' = d) ->
         owningDefinition X entries' s = Some d
         /\ owningDefinition X entries' d = Some d
         /\ forall i j,
             nth_error entries' i = Some s ->
             nth_error entries' j = Some d ->
             nth_error (getDefinitionProperties X entries') i
             = nth_error (getDefinitionProperties X entries') j).
Proof.
  split.
  - intros r opts entries st o st' Hfp H.
    pose proof (syncDown_calls _ _ _ _ _ H) as C. rewrite Hfp in C.
    destruct C as [evs [Ht Hf]]. exists evs. split; [exact Ht|].
    eapply Forall_impl; [|exact Hf].
    intros ev. destruct ev; simpl; tauto.
  - intros entries entries' s d Hperm Hs Hd Hdef Hsame Hrefl Huniq.
    assert (Hd' : In d entries') by (eapply Permutation_in; eauto).
    assert (Hu' : forall d', In d' entries' ->
                             isDefinitionFile X d' = true ->
                             sameBundle X d' s = true
                             \/ sameBundle X d' d = true -> d' = d).
    { intros d' Hin. apply Huniq.
      eapply Permutation_in; [apply Permutation_sym; exact Hperm|exact Hin]. }
    assert (Es : owningDefinition X entries' s = Some d).
    { apply owningDefinition_unique; auto. }
    assert (Ed : owningDefinition X entries' d = Some d).
    { apply owningDefinition_unique; auto. }
    split; [exact Es|]. split; [exact Ed|].
    intros i j Hi Hj. unfold getDefinitionProperties.
    rewrite !nth_error_map, Hi, Hj. simpl. rewrite Es, Ed. reflexivity.
Qed.

(** *** Packages in series *)

Lemma mapSeries_stops A B (f : A -> M T B) (done : list A) :
  forall failing rest st results st1 t st2,
    mapSeries f done st = (Ok results, st1) ->
    f failing st1 = (Throw t, st2) ->
    mapSeries f (done ++ failing :: rest) st = (Throw t, st2).
Proof.
  induction done as [|x done IH]; intros failing rest st results st1 t st2 Hd Hf.
  - inversion Hd; subst. simpl. unfold bind. rewrite Hf. reflexivity.
  - simpl in Hd |- *. unfold bind at 1 in Hd. unfold bind at 1.
    destruct (f x st) as [[y|t'] sx]; [|discriminate].
    unfold bind at 1 in Hd. unfold bind at 1.
    destruct (mapSeries f done sx) as [[ys|t'] sy] eqn:E; [|discriminate].
    inversion Hd; subst.
    rewrite (IH failing rest _ _ _ _ _ E Hf). reflexivity.
Qed.

(** C1 (as amended): when the step of every package completes, the
    orchestrator then re-queries the revision state of the org and
    resolves to the results of the packages, in order. When the step of a
    package throws, for instance RetrieveFailed, the pull rejects with
    that error on the spot: the packages after it are not processed, the
    revision state is not re-queried, and the results of the packages
    before it are not reported. *)
Theorem pull_stops_at_first_failed_package
        (options : Options) (st st1 st2 : State T)
        (checked : option (list (Conflict T)))
        (packages : list (string * Package T)) :
  _checkForConflicts X (withDefaultWait X options) st = (Ok checked, st1) ->
  revisionsAsPackage X st1 = (Ok packages, st2) ->
  (forall results st3,
      mapSeries (pullPackage X (withDefaultWait X options) packages)
                (map fst packages) st2 = (Ok results, st3) ->
      doPull X options st
      = (match fst (setMaxRevisionCounterFromQuery X (world st3)) with
         | Ok _ => Ok results
         | Throw t => Throw t
         end,
         mkState (snd (setMaxRevisionCounterFromQuery X (world st3)))
                 (trace st3 ++ [EvSetMaxRevisionCounterFromQuery])
                 (obsoleteNames st3)))
  /\ (forall done failing rest results st3 t st4,
         map fst packages = done ++ failing :: rest ->
         mapSeries (pullPackage X (withDefaultWait X options) packages)
                   done st2 = (Ok results, st3) ->
         pullPackage X (withDefaultWait X options) packages failing st3
         = (Throw t, st4) ->
         doPull X options st = (Throw t, st4)).
Proof.
  intros Hc Hp. split.
  - intros results st3 Hm. unfold doPull, pullPackages.
    unfold bind at 1. rewrite Hc.
    unfold bind at 1. rewrite Hp.
    unfold bind at 1. rewrite Hm.
    unfold bind, call.
    destruct (setMaxRevisionCounterFromQuery X (world st3)) as [[u|t] w'];
      reflexivity.
  - intros done failing rest results st3 t st4 Hnames Hm Hf.
    unfold doPull, pullPackages.
    unfold bind at 1. rewrite Hc.
    unfold bind at 1. rewrite Hp.
    unfold bind at 1. rewrite Hnames.
    rewrite (mapSeries_stops _ _ _ _ _ rest _ _ _ _ _ Hm Hf). reflexivity.
Qed.

(** *** Failure of the status query *)

(** C6 (as amended): when the status comparison fails with an error whose
    code is INVALID_TYPE, the pull aborts there and what it throws carries
    the NonScratchOrgPull message of the source_pull bundle in place of
    the message of the error; with any other code it carries the message
    of the error itself. *)
Theorem status_failure_carries_message
        (options : Options) (st st2 : State T) (w1 : World T)
        (e : JsError T) :
  truthy (forceoverwrite options) = false ->
  statusCreate X (world st) = (Ok tt, w1) ->
  statusComparison X
    (mkState w1 (trace st ++ [EvStatusCreate]) (obsoleteNames st))
  = (Throw (ThrowErr e), st2) ->
  exists t,
    doPull X options st = (Throw t, st2)
    /\ thrownText t
       = (if strictEqStr (errorCode e) "INVALID_TYPE"
          then JStr (msg_NonScratchOrgPull X)
          else message e).
Proof.
  intros Hf Hc Hs.
  exists (ThrowVal (if strictEqStr (errorCode e) "INVALID_TYPE"
                    then JStr (msg_NonScratchOrgPull X)
                    else message e)).
  split; [|reflexivity].
  unfold doPull, _checkForConflicts.
  rewrite forceoverwrite_withDefaultWait, Hf.
  unfold bind at 1. unfold bind at 1. unfold call at 1. rewrite Hc.
  unfold bind at 1. unfold catch_. rewrite Hs.
  unfold statusFailed, readProp. unfold bind, ret, throw.
  destruct (strictEqStr (errorCode e) "INVALID_TYPE"); reflexivity.
Qed.


(** *** Temp directories across a pull *)

Lemma tempDirOpen_app (a c : list (Event T)) : forall b b',
  tempDirOpen b a = Some b' -> tempDirOpen b (a ++ c) = tempDirOpen b' c.
Proof.
  induction a as [|ev a IH]; intros b b' H; simpl in *.
  - inversion H; subst. reflexivity.
  - destruct ev; try (apply IH; exact H);
      destruct b; try discriminate; apply IH; exact H.
Qed.

Lemma tempDirsClosed_app (a c : list (Event T)) :
  tempDirsClosed a -> tempDirsClosed c -> tempDirsClosed (a ++ c).
Proof.
  unfold tempDirsClosed. intros Ha Hc.
  rewrite (tempDirOpen_app a c false false Ha). exact Hc.
Qed.

Lemma tempDirOpen_neutral (evs : list (Event T)) b :
  Forall (fun ev => isCreate ev = false /\ isCleanup ev = false) evs ->
  tempDirOpen b evs = Some b.
Proof.
  induction 1 as [|ev evs [H1 H2] _ IH]; [reflexivity|].
  destruct ev; simpl in *; try exact IH; discriminate.
Qed.

Lemma stepEvent_neutral opts (ev : Event T) :
  stepEvent opts ev -> isCreate ev = false /\ isCleanup ev = false.
Proof. destruct ev; simpl; tauto. Qed.

Lemma statusEvent_neutral (ev : Event T) :
  statusEvent ev -> isCreate ev = false /\ isCleanup ev = false.
Proof. destruct ev; simpl; tauto. Qed.

Lemma emitsAll_bind (Q : list (Event T) -> Prop) A B
      (m : M T A) (k : A -> M T B) :
  (forall a c, Q a -> Q c -> Q (a ++ c)) ->
  emitsAll Q m -> (forall a, emitsAll Q (k a)) -> emitsAll Q (bind m k).
Proof.
  intros Happ Hm Hk st o st' H. unfold bind in H.
  destruct (m st) as [[a|t] st1] eqn:E.
  - destruct (Hm _ _ _ E) as [evs1 [E1 F1]].
    destruct (Hk a _ _ _ H) as [evs2 [E2 F2]].
    exists (evs1 ++ evs2). rewrite E2, E1, app_assoc. auto.
  - inversion H; subst. exact (Hm _ _ _ E).
Qed.

Lemma emitsAll_of_runs (P : Event T -> Prop) (Q : list (Event T) -> Prop)
      A (m : M T A) :
  (forall evs, Forall P evs -> Q evs) -> runs P m -> emitsAll Q m.
Proof.
  intros HPQ Hm st o st' H.
  destruct (Hm _ _ _ H) as [_ [evs [E F]]]. exists evs. auto.
Qed.

Lemma emitsAll_mapSeries (Q : list (Event T) -> Prop) A B
      (f : A -> M T B) (items : list A) :
  Q [] -> (forall a c, Q a -> Q c -> Q (a ++ c)) ->
  (forall x, emitsAll Q (f x)) -> emitsAll Q (mapSeries f items).
Proof.
  intros Hnil Happ Hf. induction items as [|x rest IH]; simpl.
  - intros st o st' H. inversion H; subst. exists [].
    rewrite app_nil_r. auto.
  - apply emitsAll_bind; [exact Happ | apply Hf | intros y].
    apply emitsAll_bind; [exact Happ | exact IH | intros ys].
    intros st o st' H. inversion H; subst. exists [].
    rewrite app_nil_r. auto.
Qed.

Lemma beforeCleanup_neutral opts (ev : Event T) :
  beforeCleanup opts ev -> isCreate ev = false /\ isCleanup ev = false.
Proof. intros [H _]. exact (stepEvent_neutral _ _ H). Qed.

Lemma tracking_neutral (ev : Event T) :
  isTracking ev = true -> isCreate ev = false /\ isCleanup ev = false.
Proof. destruct ev; simpl; try discriminate; auto. Qed.

Lemma pullPackage_closes options packages pkgName :
  emitsAll tempDirsClosed (pullPackage X options packages pkgName).
Proof.
  intros st o st' H.
  destruct (pullPackage_shape _ _ _ _ _ _ H)
    as [_ [E|[E|[dir [before [after [E [F1 F2]]]]]]]];
    eexists; (split; [exact E|]); unfold tempDirsClosed.
  - reflexivity.
  - reflexivity.
  - simpl.
    rewrite (tempDirOpen_app before _ true true).
    + simpl. apply tempDirOpen_neutral.
      eapply Forall_impl; [|exact F2]. apply tracking_neutral.
    + apply tempDirOpen_neutral.
      eapply Forall_impl; [|exact F1]. apply beforeCleanup_neutral.
Qed.

(** X7: throughout a pull, temp directories are open one at a time and
    none is left open: every [createOutputDir] call, also one that fails,
    is followed by a [cleanupOutputDir] call before the next
    [createOutputDir] and before the pull ends, however the pull ends. *)
Theorem temp_dirs_open_one_at_a_time (options : Options) st o st' :
  doPull X options st = (o, st') ->
  exists evs,
    trace st' = trace st ++ evs /\ tempDirOpen false evs = Some false.
Proof.
  revert st o st'. change (emitsAll tempDirsClosed (doPull X options)).
  unfold doPull, pullPackages.
  apply emitsAll_bind; [apply tempDirsClosed_app | |intros _].
  - eapply emitsAll_of_runs; [|apply checkForConflicts_runs].
    intros evs F. apply tempDirOpen_neutral.
    eapply Forall_impl; [|exact F]. apply statusEvent_neutral.
  - apply emitsAll_bind; [apply tempDirsClosed_app | |intros packages].
    + intros st o st' H. eexists.
      split; [exact (revisionsAsPackage_trace _ _ _ H) | reflexivity].
    + apply emitsAll_bind; [apply tempDirsClosed_app | |intros results].
      * apply emitsAll_mapSeries;
          [reflexivity | apply tempDirsClosed_app | intros x].
        apply pullPackage_closes.
      * eapply emitsAll_of_runs
          with (P := fun ev => isCreate ev = false /\ isCleanup ev = false).
        -- intros evs F. apply tempDirOpen_neutral. exact F.
        -- runs_auto.
Qed.

(** *** The calls of a pull, phase by phase *)

(** X8: the calls of a pull come in two phases. First the calls of the
    conflict check and nothing else; under forceoverwrite there are none.
    Then the calls of partitioning and of the packages, among which there
    is no status call: each manifest, retrieve and per-file call names a
    temp directory, each retrieve call carries the wait of the options
    after the default was filled in, no per-file call is for an entry of
    type Package, and each persist call skips the duplicate check and
    carries the options' manifest and flags. *)
Theorem pull_calls_in_two_phases (options : Options) st o st' :
  doPull X options st = (o, st') ->
  exists statusCalls pullCalls,
    trace st' = trace st ++ statusCalls ++ pullCalls
    /\ Forall statusEvent statusCalls
    /\ Forall (pullEvent (withDefaultWait X options)) pullCalls
    /\ (truthy (forceoverwrite options) = true -> statusCalls = []).
Proof.
  intros H. unfold doPull in H. unfold bind at 1 in H.
  destruct (truthy (forceoverwrite options)) eqn:F.
  - unfold _checkForConflicts in H.
    rewrite forceoverwrite_withDefaultWait, F in H. unfold ret at 1 in H.
    destruct (pullPackages_emits _ _ _ _ H) as [evs [E Fa]].
    exists [], evs. simpl. auto.
  - destruct (_checkForConflicts X (withDefaultWait X options) st)
      as [[c|t] st1] eqn:E.
    + destruct (checkForConflicts_runs _ _ _ _ E) as [_ [sevs [Es Fs]]].
      destruct (pullPackages_emits _ _ _ _ H) as [pevs [Ep Fp]].
      exists sevs, pevs. rewrite Ep, Es, <- app_assoc.
      repeat split; auto. discriminate.
    + inversion H; subst.
      destruct (checkForConflicts_runs _ _ _ _ E) as [_ [sevs [Es Fs]]].
      exists sevs, []. rewrite app_nil_r.
      repeat split; auto. discriminate.
Qed.

(** X9: once the temp directory of a package exists, every call that
    the [try] block of the step makes works on that directory and on the
    caller's settings: a manifest is written to it, the gateway retrieves
    into it with the wait of the options, each per-file call reads from
    it, and the persist call carries the options' manifest,
    unsupported-mime-type and force-overwrite values. The
    [retrievetargetdir] that the caller may have put in the options is not
    used. After these calls comes the cleanup of that directory, and after
    it nothing but tracking calls. *)
Theorem package_calls_use_its_temp_dir
        (options : Options) (packages : list (string * Package T))
        (pkgName : string) (st : State T) (w1 w2 : World T) (dir : string)
        (o : Outcome T (option (PullResult T))) (st' : State T) :
  setActivePackage X pkgName (world st) = (Ok tt, w1) ->
  createOutputDir X w1 = (Ok dir, w2) ->
  pullPackage X options packages pkgName st = (o, st') ->
  exists before after,
    trace st'
    = trace st ++ [EvSetActivePackage pkgName; EvCreateOutputDir]
        ++ before ++ [EvCleanupOutputDir (JStr dir)] ++ after
    /\ Forall (stepEvent (set_retrievetargetdir options (JStr dir))) before
    /\ Forall (fun ev => isTracking ev = true) after
    /\ wait (set_retrievetargetdir options (JStr dir)) = wait options
    /\ retrievetargetdir (set_retrievetargetdir options (JStr dir))
       = JStr dir.
Proof.
  intros Ha Hd H.
  destruct (pullPackage_with_dir _ _ _ _ _ _ _ _ _ Ha Hd H)
    as [_ [before [after [Tr [F1 F2]]]]].
  exists before, after. split; [exact Tr|]. split; [|auto].
  eapply Forall_impl; [|exact F1]. intros ev [Hs _]. exact Hs.
Qed.

(** X10: when the gateway rejects with an error that carries no result,
    the rejection is dropped: [result] is [undefined], nothing is applied
    and nothing is recorded, the one call after the retrieve call is the
    cleanup of the temp directory, and the step yields [undefined] unless
    that cleanup throws. *)
Theorem gateway_rejection_without_result_is_silent
        (options : Options) (packages : list (string * Package T))
        (pkgName : string) (p : Package T) (st st3 : State T)
        (w1 w2 w4 : World T) (dir : string) (m : Manifest) (e : JsError T) :
  setActivePackage X pkgName (world st) = (Ok tt, w1) ->
  createOutputDir X w1 = (Ok dir, w2) ->
  lookupPackage pkgName packages = Some p ->
  _createPackageManifest X (set_retrievetargetdir options (JStr dir))
    (JStr dir) p
    (mkState w2 (trace st ++ [EvSetActivePackage pkgName; EvCreateOutputDir])
             (obsoleteNames st))
  = (Ok m, st3) ->
  truthy (m_empty m) = false ->
  retrieve X (mkRetrieveOptions (JStr dir) (m_file m) (wait options))
           (world st3)
  = (Throw (ThrowErr e), w4) ->
  result e = None ->
  pullPackage X options packages pkgName st
  = (match fst (cleanupOutputDir X (JStr dir) w4) with
     | Ok _ => Ok None
     | Throw t => Throw t
     end,
     mkState (snd (cleanupOutputDir X (JStr dir) w4))
       (trace st3
        ++ [EvRetrieve (mkRetrieveOptions (JStr dir) (m_file m)
                          (wait options));
            EvCleanupOutputDir (JStr dir)])
       (obsoleteNames st3)).
Proof.
  intros Ha Hd Hl Hm He Hr Hres.
  rewrite (pullPackage_from_result _ _ _ _ _ _ _ Ha Hd).
  unfold packageResult. rewrite Hl. unfold bind at 1.
  simpl retrievetargetdir. rewrite Hm.
  unfold retrieveOrSkip. rewrite He.
  cbn [wait retrievetargetdir set_retrievetargetdir].
  unfold catch_, call. rewrite Hr. simpl. rewrite Hres. unfold ret.
  rewrite returnAndCleanUp_nothing. simpl.
  repeat rewrite <- app_assoc. reflexivity.
Qed.

(** X11: a package step can end before its [try] block does any work. When
    [setActivePackage] throws, the step throws the same and calls nothing
    else: no temp directory is made and none is cleaned up. When
    [createOutputDir] throws, [cleanupOutputDir] is still called, with
    whatever [retrievetargetdir] the caller's options hold, and the step
    throws what [createOutputDir] threw unless that cleanup throws too. *)
Theorem package_step_early_exits
        (options : Options) (packages : list (string * Package T))
        (pkgName : string) (st : State T) :
  (forall t w1,
      setActivePackage X pkgName (world st) = (Throw t, w1) ->
      pullPackage X options packages pkgName st
      = (Throw t,
         mkState w1 (trace st ++ [EvSetActivePackage pkgName])
                 (obsoleteNames st)))
  /\ (forall w1 t w2,
         setActivePackage X pkgName (world st) = (Ok tt, w1) ->
         createOutputDir X w1 = (Throw t, w2) ->
         pullPackage X options packages pkgName st
         = (match fst (cleanupOutputDir X (retrievetargetdir options) w2) with
            | Ok _ => Throw t
            | Throw t' => Throw t'
            end,
            mkState (snd (cleanupOutputDir X (retrievetargetdir options) w2))
              (trace st
               ++ [EvSetActivePackage pkgName; EvCreateOutputDir;
                   EvCleanupOutputDir (retrievetargetdir options)])
              (obsoleteNames st))).
Proof.
  split.
  - intros t w1 Ha. unfold pullPackage, bind, call. rewrite Ha. reflexivity.
  - intros w1 t w2 Ha Hd. unfold pullPackage. unfold bind at 1.
    unfold call at 1. rewrite Ha.
    unfold packageTry. unfold call at 1. simpl. rewrite Hd. simpl.
    unfold call. simpl.
    destruct (cleanupOutputDir X (retrievetargetdir options) w2)
      as [[u|t'] w3]; simpl; repeat rewrite <- app_assoc; reflexivity.
Qed.

(** *** The apply step *)

Lemma forEach_files_processed dir bundle (entries : list FileProperty) :
  forall w acc given changed w',
    FilesProcessed X dir bundle w acc
      (map (hostSeparators X) (retained entries)) given changed w' ->
    forall tr ob,
      forEach (syncFileProperty X dir bundle) entries acc (mkState w tr ob)
      = (Ok changed,
         mkState w'
           (tr ++ fileCalls dir bundle given
                    (map (hostSeparators X) (retained entries)))
           ob).
Proof.
  induction entries as [|fp rest IH]; intros w acc given changed w' H tr ob.
  - inversion H; subst. simpl. rewrite app_nil_r. reflexivity.
  - simpl. unfold bind, syncFileProperty. unfold retained in *. simpl in *.
    destruct (String.eqb (fp_type fp) "Package"); simpl in *.
    + unfold ret. apply IH. exact H.
    + inversion H as [|w0 acc0 file rest0 a w1 given0 changed0 w0' Hcall Hrest];
        subst.
      unfold call. simpl. unfold hostSeparators in Hcall. rewrite Hcall.
      rewrite (IH _ _ _ _ _ Hrest). rewrite <- app_assoc. reflexivity.
Qed.

(** X12: when every per-file call and every [handleObsoleteSource] call
    returns, an apply makes its calls in this order: the definition
    mapping; then one per-file call for each entry that is not of type
    Package, in the order of the result and with the names turned to the
    separators of the host; then one [handleObsoleteSource] call for each
    obsolete name, in order; then the persist call. The first of these
    calls is given a new aggregate, each later one the aggregate that the
    call before it returned, and the persist call the aggregate that the
    last of them returned. *)
Theorem apply_runs_in_three_phases
        (r : RetrieveResult) (opts : Options) (entries : list FileProperty)
        (st : State T)
        (givenFiles : list (Aggregate T)) (afterFiles : Aggregate T)
        (w1 : World T)
        (givenNames : list (Aggregate T)) (afterNames : Aggregate T)
        (w2 : World T) :
  fileProperties r = FPArray entries ->
  FilesProcessed X (retrievetargetdir opts)
    (getDefinitionProperties X entries) (world st) (newAggregate X)
    (map (hostSeparators X) (retained entries))
    givenFiles afterFiles w1 ->
  NamesHandled X w1 afterFiles (obsoleteNames st)
    givenNames afterNames w2 ->
  _syncDownSource X r opts st
  = call (EvUpdateSource afterNames (manifest opts) false
            (unsupportedMimeTypes opts) (forceoverwrite opts))
         (updateSource X afterNames (manifest opts) false
            (unsupportedMimeTypes opts) (forceoverwrite opts))
         (mkState w2
            (trace st
             ++ EvGetDefinitionProperties entries
             :: fileCalls (retrievetargetdir opts)
                  (getDefinitionProperties X entries) givenFiles
                  (map (hostSeparators X) (retained entries))
             ++ obsoleteCalls givenNames (obsoleteNames st))
            (obsoleteNames st)).
Proof.
  intros Hfp Hf Hn. unfold _syncDownSource. rewrite Hfp.
  unfold bind at 1. unfold call at 1. simpl.
  unfold bind at 1. rewrite (forEach_files_processed _ _ _ _ _ _ _ _ Hf).
  unfold bind at 1. unfold getObsoleteNames at 1. simpl.
  unfold bind at 1. rewrite (forEach_names_handled _ _ _ _ _ _ Hn).
  repeat rewrite <- app_assoc. reflexivity.
Qed.

(** X13: when the apply step throws, [_postRetrieve] throws the same and
    records nothing: none of the three tracking calls is made. *)
Theorem failed_apply_records_nothing
        (r : RetrieveResult) (opts : Options) (st st1 : State T)
        (t : Thrown T) :
  _didRetrieveSucceed (Some r) = true ->
  _syncDownSource X r opts st = (Throw t, st1) ->
  _postRetrieve X (Some r) opts st = (Throw t, st1)
  /\ exists evs,
      trace st1 = trace st ++ evs /\ existsb isTracking evs = false.
Proof.
  intros Hs Ha. split.
  - unfold _postRetrieve. rewrite Hs. unfold bind at 1. rewrite Ha.
    reflexivity.
  - pose proof (syncDown_calls _ _ _ _ _ Ha) as C.
    destruct (fileProperties r) as [| |entries].
    + exists []. rewrite app_nil_r. auto.
    + exists []. rewrite app_nil_r. auto.
    + destruct C as [evs [Ht Hf]].
      exists (EvGetDefinitionProperties entries :: evs).
      split; [exact Ht|]. simpl.
      clear Ht. induction Hf as [|ev evs Hev _ IH]; [reflexivity|].
      simpl. rewrite IH. destruct ev; simpl in *; tauto.
Qed.

(** *** Packages and their results *)

Lemma mapSeries_length A B (f : A -> M T B) (items : list A) :
  forall st ys st',
    mapSeries f items st = (Ok ys, st') ->
    List.length ys = List.length items.
Proof.
  induction items as [|x rest IH]; intros st ys st' H; simpl in H.
  - inversion H; subst. reflexivity.
  - apply bind_Ok_inv in H. destruct H as [y [s1 [_ H]]].
    apply bind_Ok_inv in H. destruct H as [ys' [s2 [Hm H]]].
    inversion H; subst. simpl. f_equal. exact (IH _ _ _ Hm).
Qed.

(** X14: the field [this.obsoleteNames] changes in partitioning only: it
    holds what [getRevisionsAsPackage] left in the array, and no package
    step changes it, so the apply of every package of the pull handles
    that same list. *)
Theorem obsolete_names_fixed_by_partitioning
        (options : Options) (st : State T)
        (packages : list (string * Package T)) (names : list ObsoleteName)
        (w : World T) :
  getRevisionsAsPackage X (obsoleteNames st) (world st)
  = (Ok (packages, names), w) ->
  exists st2,
    revisionsAsPackage X st = (Ok packages, st2)
    /\ obsoleteNames st2 = names
    /\ forall items o st3,
        mapSeries (pullPackage X options packages) items st2 = (o, st3) ->
        obsoleteNames st3 = names.
Proof.
  intros Hg. unfold revisionsAsPackage. rewrite Hg.
  eexists. split; [reflexivity|]. split; [reflexivity|].
  intros items o st3 H.
  assert (R : runs (pullEvent options)
                (mapSeries (pullPackage X options packages) items))
    by (apply runs_mapSeries; intros x; apply pullPackage_runs).
  exact (proj1 (R _ _ _ H)).
Qed.

(** X15: a pull that resolves has gone through every package and then
    re-queried the revision state as its last call; it resolves to one
    entry per package, in the order of the package names. *)
Theorem pull_reports_one_result_per_package
        (options : Options) (st : State T)
        (results : list (option (PullResult T))) (st' : State T) :
  doPull X options st = (Ok results, st') ->
  exists st1 packages st2 st3,
    revisionsAsPackage X st1 = (Ok packages, st2)
    /\ mapSeries (pullPackage X (withDefaultWait X options) packages)
                 (map fst packages) st2 = (Ok results, st3)
    /\ List.length results = List.length packages
    /\ trace st' = trace st3 ++ [EvSetMaxRevisionCounterFromQuery].
Proof.
  intros H. unfold doPull, pullPackages in H.
  apply bind_Ok_inv in H. destruct H as [c [st1 [_ H]]].
  apply bind_Ok_inv in H. destruct H as [packages [st2 [Hp H]]].
  apply bind_Ok_inv in H. destruct H as [rs [st3 [Hm H]]].
  apply bind_Ok_inv in H. destruct H as [u [st4 [Hq H]]].
  inversion H; subst.
  exists st1, packages, st2, st3.
  split; [exact Hp|]. split; [exact Hm|]. split.
  - rewrite (mapSeries_length _ _ _ _ _ _ _ Hm). apply length_map.
  - exact (call_Ok_trace _ _ _ _ _ _ Hq).
Qed.

(** *** The manifest *)

(** X17: for an empty package the manifest is the empty sentinel, without
    any call, whatever the options say. For a package that is not empty, a
    manifest named by [packageXml] is used as it is only in debug mode:
    then no manifest is written and the step goes straight to the gateway
    with [packageXml] as the manifest to retrieve. Without debug mode, or
    without [packageXml], the manifest is written for the package, after
    the package got the configured source API version or, if none is
    configured, the API version. *)
Theorem prebuilt_manifest_needs_debug
        (opts : Options) (dir : jsval) (p : Package T) (st : State T) :
  (isEmpty X p = true ->
   _createPackageManifest X opts dir p st
   = (Ok (mkManifest (JBool true) JUndefined), st))
  /\ (isEmpty X p = false ->
      isNil (packageXml opts) = false -> truthy (debug opts) = true ->
      _createPackageManifest X opts dir p st
      = (Ok (mkManifest JUndefined (packageXml opts)), st)
      /\ retrievePackage X opts (Some p) st
         = (res <- catch_
                     (call (EvRetrieve
                              (mkRetrieveOptions (retrievetargetdir opts)
                                 (packageXml opts) (wait opts)))
                           (retrieve X
                              (mkRetrieveOptions (retrievetargetdir opts)
                                 (packageXml opts) (wait opts))))
                     (fun err => readProp err result None) ;;
            _postRetrieve X res opts) st)
  /\ (isEmpty X p = false ->
      isNil (packageXml opts) = true \/ truthy (debug opts) = false ->
      _createPackageManifest X opts dir p st
      = call (EvCreateManifest dir
                (setVersion X
                   (if isNil (configSourceApiVersion X) then getApiVersion X
                    else configSourceApiVersion X) p))
             (createManifestForMdapiPackage X opts dir
                (setVersion X
                   (if isNil (configSourceApiVersion X) then getApiVersion X
                    else configSourceApiVersion X) p)) st).
Proof.
  unfold _createPackageManifest. split; [|split].
  - intros ->. reflexivity.
  - intros He Hx Hd. rewrite He, Hx, Hd. simpl. split; [reflexivity|].
    unfold retrievePackage, _createPackageManifest.
    rewrite He, Hx, Hd. simpl. unfold bind at 1. unfold ret at 1.
    unfold retrieveOrSkip. simpl. reflexivity.
  - intros He Hor. rewrite He.
    assert (E : isNil (packageXml opts) || negb (truthy (debug opts)) = true).
    { destruct Hor as [-> | ->]; [reflexivity | apply orb_true_r]. }
    rewrite E. destruct (isNil (configSourceApiVersion X)); reflexivity.
Qed.

(** *** Failure before the status query *)

(** X18: when [SrcStatusApi.create] fails, the pull throws what it threw,
    unchanged: the handler that replaces the message of a failed status
    query does not cover it, and nothing else is called. *)
Theorem status_api_creation_failure_passes_through
        (options : Options) (st : State T) (t : Thrown T) (w1 : World T) :
  truthy (forceoverwrite options) = false ->
  statusCreate X (world st) = (Throw t, w1) ->
  doPull X options st
  = (Throw t, mkState w1 (trace st ++ [EvStatusCreate]) (obsoleteNames st)).
Proof.
  intros Hf Hc. unfold doPull, _checkForConflicts.
  rewrite forceoverwrite_withDefaultWait, Hf.
  unfold bind, call. rewrite Hc. reflexivity.
Qed.

(** *** The conflict check passes *)

(** X19: without forceoverwrite, when the status comparison yields no
    conflict, the check resolves to [undefined] and the pull goes on with
    partitioning and the packages, from the state the three status calls
    left. *)
Theorem no_conflict_lets_the_pull_proceed
        (options : Options) (st : State T) (w1 w2 w3 : World T) :
  truthy (forceoverwrite options) = false ->
  statusCreate X (world st) = (Ok tt, w1) ->
  doStatus X true true w1 = (Ok tt, w2) ->
  getLocalConflicts X w2 = (Ok [], w3) ->
  _checkForConflicts X options st
  = (Ok None,
     mkState w3
       (trace st ++ [EvStatusCreate; EvDoStatus true true;
                     EvGetLocalConflicts])
       (obsoleteNames st))
  /\ doPull X options st
     = pullPackages X (withDefaultWait X options)
         (mkState w3
            (trace st ++ [EvStatusCreate; EvDoStatus true true;
                          EvGetLocalConflicts])
            (obsoleteNames st)).
Proof.
  intros Hf Hc Hs Hl.
  assert (E : forall o, forceoverwrite o = forceoverwrite options ->
                _checkForConflicts X o st
                = (Ok None,
                   mkState w3
                     (trace st ++ [EvStatusCreate; EvDoStatus true true;
                                   EvGetLocalConflicts])
                     (obsoleteNames st))).
  { intros o Ho. unfold _checkForConflicts. rewrite Ho, Hf.
    unfold bind, catch_, statusComparison, bind, call. simpl.
    rewrite Hc. simpl. rewrite Hs. simpl. rewrite Hl. simpl.
    unfold ret. repeat rewrite <- app_assoc. reflexivity. }
  split; [apply E; reflexivity|].
  unfold doPull. unfold bind at 1.
  rewrite (E _ (forceoverwrite_withDefaultWait options)). reflexivity.
Qed.

(** *** A rejection that carries a result *)


End Facts.

(** C3, as first stated, fails twice: a result whose messages are an empty
    list meets the stated predicate but counts as failed, and a nil result
    fails the predicate but is answered by [undefined], not by an error. *)
Lemma success_predicate_as_stated_fails :
  (succeededAsSpecified (Some Scenario.emptyMessages) = true
   /\ _didRetrieveSucceed (Some Scenario.emptyMessages) = false)
  /\ (succeededAsSpecified None = false
      /\ _postRetrieve Scenario.quietOrg None Scenario.plainOptions
           Scenario.start
         = (Ok None, Scenario.start)).
Proof. repeat split. Qed.

Lemma retrieve_outcome_by_success_predicate_witness :
  _didRetrieveSucceed (Some Scenario.twoClasses) = true
  /\ _didRetrieveSucceed (Some Scenario.failedResult) = false
  /\ fst (_postRetrieve Scenario.quietOrg (Some Scenario.twoClasses)
            Scenario.plainOptions Scenario.start)
     = Ok (Some (mkPullResult (T:=Scenario.T0)
                   (Some ["classes/Foo.cls"; "classes/Bar.cls"])))
  /\ fst (_postRetrieve Scenario.quietOrg (Some Scenario.failedResult)
            Scenario.plainOptions Scenario.start)
     = Throw (retrieveFailed Scenario.quietOrg Scenario.failedResult).
Proof.
  pose proof (retrieve_outcome_by_success_predicate Scenario.T0
                Scenario.quietOrg (Some Scenario.twoClasses)
                Scenario.plainOptions Scenario.start) as [_ [Hok _]].
  pose proof (retrieve_outcome_by_success_predicate Scenario.T0
                Scenario.quietOrg (Some Scenario.failedResult)
                Scenario.plainOptions Scenario.start) as [_ [_ [Hko _]]].
  split; [reflexivity|]. split; [reflexivity|]. split.
  - rewrite (Hok _ eq_refl eq_refl). reflexivity.
  - destruct (Hko _ eq_refl eq_refl) as [E _]. rewrite E. reflexivity.
Defined.

(** C4, as first stated, fails: for an empty package without obsolete names
    the step makes up no succeeded-empty result; [result] is [undefined]
    and so is what the step yields. *)
Lemma empty_manifest_without_obsolete_synthesizes_nothing :
  obsoleteNames Scenario.start = []
  /\ retrieveOrSkip Scenario.quietOrg Scenario.plainOptions
       (mkManifest (JBool true) JUndefined) Scenario.start
     = (Ok None, Scenario.start)
  /\ fst (retrieveOrSkip Scenario.quietOrg Scenario.plainOptions
            (mkManifest (JBool true) JUndefined) Scenario.start)
     <> Ok (Some succeededEmpty)
  /\ fst (pullPackage Scenario.quietOrg Scenario.plainOptions [("A", [])]
            "A" Scenario.start)
     = Ok None.
Proof.
  split; [reflexivity|]. split; [reflexivity|]. split.
  - simpl. discriminate.
  - reflexivity.
Qed.

Lemma retrieve_or_skip_by_manifest_witness :
  pullPackage Scenario.quietOrg
    (withDefaultWait Scenario.quietOrg Scenario.plainOptions)
    [("A", [])] "A" Scenario.start
  = (Ok None,
     mkState (T:=Scenario.T0) 1
       [EvSetActivePackage "A"; EvCreateOutputDir;
        EvCleanupOutputDir (JStr "pull0")] [])
  /\ pullPackage Scenario.healthyOrg
       (withDefaultWait Scenario.healthyOrg Scenario.plainOptions)
       Scenario.twoPackages "A" Scenario.start
     = returnAndCleanUp Scenario.healthyOrg
         (set_retrievetargetdir
            (withDefaultWait Scenario.healthyOrg Scenario.plainOptions)
            (JStr "pull0"))
         (Some Scenario.twoClasses)
         (mkState (T:=Scenario.T0) 1
            [EvSetActivePackage "A"; EvCreateOutputDir;
             EvCreateManifest (T:=Scenario.T0) (JStr "pull0") ["Foo"; "Bar"];
             EvRetrieve (mkRetrieveOptions (JStr "pull0")
                           (JStr "pull0/package.xml") (WaitNumber 33))]
            [])
  /\ (exists evs,
         trace (snd (doPull Scenario.healthyOrg Scenario.plainOptions
                       Scenario.start))
         = trace Scenario.start ++ evs
         /\ Forall (fun ev =>
                      match ev with
                      | EvRetrieve ro =>
                          ro_wait ro
                          = (if isNaN (wait Scenario.plainOptions)
                             then defaultSrcWaitMinutes Scenario.healthyOrg
                             else wait Scenario.plainOptions)
                      | _ => True
                      end) evs).
Proof.
  split; [|split].
  - exact (proj1 (proj2 (retrieve_or_skip_by_manifest Scenario.T0
                           Scenario.quietOrg Scenario.plainOptions)
                    [("A", [])] "A" [] Scenario.start 0 "pull0" 1
                    (mkManifest (JBool true) JUndefined)
                    (mkState (T:=Scenario.T0) 1
                       [EvSetActivePackage "A"; EvCreateOutputDir] [])
                    eq_refl eq_refl eq_refl eq_refl)
             eq_refl eq_refl).
  - exact (proj2 (proj2 (proj2 (retrieve_or_skip_by_manifest Scenario.T0
                                  Scenario.healthyOrg Scenario.plainOptions)
                           Scenario.twoPackages "A" ["Foo"; "Bar"]
                           Scenario.start 0 "pull0" 1
                           (mkManifest JUndefined (JStr "pull0/package.xml"))
                           (mkState (T:=Scenario.T0) 1
                              [EvSetActivePackage "A"; EvCreateOutputDir;
                               EvCreateManifest (T:=Scenario.T0)
                                 (JStr "pull0") ["Foo"; "Bar"]] [])
                           eq_refl eq_refl eq_refl eq_refl))
             eq_refl (Ok (Some Scenario.twoClasses)) 1 eq_refl).
  - exact (proj1 (retrieve_or_skip_by_manifest Scenario.T0
                    Scenario.healthyOrg Scenario.plainOptions)
             Scenario.start _ _ (surjective_pairing _)).
Defined.

Lemma empty_package_still_drops_obsolete_names_witness :
  postRetrieveBegins Scenario.emptyPackageOrg (Some succeededEmpty)
    (set_retrievetargetdir Scenario.plainOptions (JStr "pull0"))
    (mkState (T:=Scenario.T0) 1
       [EvSetActivePackage "E"; EvCreateOutputDir] Scenario.goneNames)
  = (ApplyMade (T:=Scenario.T0) (Ok (T:=Scenario.T0) ["-Gone"; "-Old"]),
     mkState (T:=Scenario.T0) 1
       [EvSetActivePackage "E"; EvCreateOutputDir;
        EvGetDefinitionProperties [];
        EvHandleObsoleteSource (T:=Scenario.T0) [] "Gone" "ApexClass";
        EvHandleObsoleteSource (T:=Scenario.T0) ["-Gone"] "Old"
          "ApexTrigger";
        EvUpdateSource (T:=Scenario.T0) ["-Gone"; "-Old"] JUndefined false
          JUndefined JUndefined]
       Scenario.goneNames)
  /\ pullPackage Scenario.emptyPackageOrg Scenario.plainOptions
       [("E", [])] "E" (mkState (T:=Scenario.T0) 0 [] Scenario.goneNames)
     = returnAndCleanUp Scenario.emptyPackageOrg
         (set_retrievetargetdir Scenario.plainOptions (JStr "pull0"))
         (Some succeededEmpty)
         (mkState (T:=Scenario.T0) 1
            [EvSetActivePackage "E"; EvCreateOutputDir] Scenario.goneNames).
Proof.
  assert (Hn : NamesHandled Scenario.emptyPackageOrg 1 [] Scenario.goneNames
                 [ []; ["-Gone"] ] ["-Gone"; "-Old"] 1).
  { eapply nh_step; [reflexivity|].
    eapply nh_step; [reflexivity|]. apply nh_done. }
  destruct (empty_package_still_drops_obsolete_names Scenario.T0
              Scenario.emptyPackageOrg Scenario.plainOptions [("E", [])]
              "E" [] (mkState (T:=Scenario.T0) 0 [] Scenario.goneNames)
              0 1 1 "pull0" [ []; ["-Gone"] ] ["-Gone"; "-Old"]
              eq_refl eq_refl eq_refl eq_refl ltac:(discriminate) Hn)
    as [_ [_ [Hstep [Hbegin _]]]].
  split; [exact Hbegin | exact Hstep].
Defined.

Lemma temp_dir_removed_once_on_every_exit_witness :
  (exists before after,
      trace (snd (pullPackage Scenario.healthyOrg Scenario.plainOptions
                    Scenario.twoPackages "A" Scenario.start))
      = trace Scenario.start
          ++ [EvSetActivePackage "A"; EvCreateOutputDir]
          ++ before ++ [EvCleanupOutputDir (JStr "pull0")] ++ after
      /\ filter isCleanup
           ([EvSetActivePackage (T:=Scenario.T0) "A"; EvCreateOutputDir]
            ++ before ++ [EvCleanupOutputDir (JStr "pull0")] ++ after)
         = [EvCleanupOutputDir (JStr "pull0")]
      /\ existsb isTracking before = false
      /\ forallb isTracking after = true)
  /\ (exists before after,
         trace (snd (pullPackage Scenario.failingOrg Scenario.plainOptions
                       Scenario.twoPackages "A" Scenario.start))
         = trace Scenario.start
             ++ [EvSetActivePackage "A"; EvCreateOutputDir]
             ++ before ++ [EvCleanupOutputDir (JStr "pull0")] ++ after
         /\ filter isCleanup
              ([EvSetActivePackage (T:=Scenario.T0) "A"; EvCreateOutputDir]
               ++ before ++ [EvCleanupOutputDir (JStr "pull0")] ++ after)
            = [EvCleanupOutputDir (JStr "pull0")]
         /\ existsb isTracking before = false
         /\ forallb isTracking after = true)
  /\ (exists before after,
         trace (snd (pullPackage Scenario.noPersist Scenario.plainOptions
                       Scenario.twoPackages "A" Scenario.start))
         = trace Scenario.start
             ++ [EvSetActivePackage "A"; EvCreateOutputDir]
             ++ before ++ [EvCleanupOutputDir (JStr "pull0")] ++ after
         /\ filter isCleanup
              ([EvSetActivePackage (T:=Scenario.T0) "A"; EvCreateOutputDir]
               ++ before ++ [EvCleanupOutputDir (JStr "pull0")] ++ after)
            = [EvCleanupOutputDir (JStr "pull0")]
         /\ existsb isTracking before = false
         /\ forallb isTracking after = true)
  /\ fst (pullPackage Scenario.healthyOrg Scenario.plainOptions
            Scenario.twoPackages "A" Scenario.start)
     = Ok (Some (mkPullResult (T:=Scenario.T0)
                   (Some ["classes/Foo.cls"; "classes/Bar.cls"])))
  /\ fst (pullPackage Scenario.failingOrg Scenario.plainOptions
            Scenario.twoPackages "A" Scenario.start)
     = Throw (retrieveFailed Scenario.failingOrg Scenario.failedResult)
  /\ fst (pullPackage Scenario.noPersist Scenario.plainOptions
            Scenario.twoPackages "A" Scenario.start)
     = Throw Scenario.diskFull.
Proof.
  split; [|split; [|split]].
  - exact (temp_dir_removed_once_on_every_exit Scenario.T0
             Scenario.healthyOrg Scenario.plainOptions Scenario.twoPackages
             "A" Scenario.start 0 1 "pull0" _ _ eq_refl eq_refl
             (surjective_pairing _)).
  - exact (temp_dir_removed_once_on_every_exit Scenario.T0
             Scenario.failingOrg Scenario.plainOptions Scenario.twoPackages
             "A" Scenario.start 0 1 "pull0" _ _ eq_refl eq_refl
             (surjective_pairing _)).
  - exact (temp_dir_removed_once_on_every_exit Scenario.T0
             Scenario.noPersist Scenario.plainOptions Scenario.twoPackages
             "A" Scenario.start 0 1 "pull0" _ _ eq_refl eq_refl
             (surjective_pairing _)).
  - repeat split; vm_compute; reflexivity.
Defined.

Lemma persist_skips_duplicate_check_witness :
  exists evs changed,
    trace (snd (_syncDownSource Scenario.quietOrg Scenario.twoClasses
                  Scenario.plainOptions Scenario.start))
    = trace Scenario.start ++ evs
        ++ [EvUpdateSource (T:=Scenario.T0) changed JUndefined false
              JUndefined JUndefined]
    /\ filter isPersist evs = [].
Proof.
  exact (proj1 (persist_skips_duplicate_check Scenario.T0 Scenario.quietOrg)
           Scenario.twoClasses Scenario.plainOptions Scenario.start
           ["classes/Foo.cls"; "classes/Bar.cls"] _ eq_refl).
Defined.

Lemma bundle_mapping_once_for_all_files_witness :
  getDefinitionProperties Scenario.quietOrg
    [Scenario.rootCss; Scenario.rootJs; Scenario.rootCmp]
  = [Some Scenario.rootCmp; Some Scenario.rootCmp; Some Scenario.rootCmp]
  /\ owningDefinition Scenario.quietOrg
       [Scenario.rootCss; Scenario.rootJs; Scenario.rootCmp] Scenario.rootJs
     = Some Scenario.rootCmp.
Proof.
  split; [reflexivity|].
  refine (proj1 (proj2 (bundle_mapping_once_for_all_files Scenario.T0
                          Scenario.quietOrg)
                   [Scenario.rootCmp; Scenario.rootJs; Scenario.rootCss]
                   [Scenario.rootCss; Scenario.rootJs; Scenario.rootCmp]
                   Scenario.rootJs Scenario.rootCmp
                   _ _ _ eq_refl eq_refl eq_refl _)).
  - apply Permutation_sym, Permutation_rev.
  - simpl. auto.
  - simpl. auto.
  - intros d' Hin Hdef _.
    destruct Hin as [<-|[<-|[<-|[]]]]; [reflexivity|discriminate|discriminate].
Defined.

(** C1, as first stated, fails: when the first of two packages fails, the
    second is never processed and the revision state is not re-queried;
    when the second fails after the first succeeded and was persisted, the
    pull throws, reports no inbound files and does not re-query either. *)
Lemma failed_package_ends_the_pull :
  (fst (doPull (Scenario.org (Ok tt) [] Scenario.twoPackages []
                  Scenario.firstFails)
          Scenario.plainOptions Scenario.start)
   = Throw (retrieveFailed Scenario.quietOrg Scenario.failedResult)
   /\ existsb (isActivation "B")
        (trace (snd (doPull (Scenario.org (Ok tt) [] Scenario.twoPackages []
                               Scenario.firstFails)
                       Scenario.plainOptions Scenario.start)))
      = false
   /\ existsb isRequery
        (trace (snd (doPull (Scenario.org (Ok tt) [] Scenario.twoPackages []
                               Scenario.firstFails)
                       Scenario.plainOptions Scenario.start)))
      = false)
  /\ (fst (doPull (Scenario.org (Ok tt) [] Scenario.twoPackages []
                     Scenario.secondFails)
             Scenario.plainOptions Scenario.start)
      = Throw (retrieveFailed Scenario.quietOrg Scenario.failedResult)
      /\ existsb isPersist
           (trace (snd (doPull (Scenario.org (Ok tt) [] Scenario.twoPackages
                                  [] Scenario.secondFails)
                          Scenario.plainOptions Scenario.start)))
         = true
      /\ existsb isRequery
           (trace (snd (doPull (Scenario.org (Ok tt) [] Scenario.twoPackages
                                  [] Scenario.secondFails)
                          Scenario.plainOptions Scenario.start)))
         = false).
Proof.
  split; (split; [|split]); vm_compute; reflexivity.
Qed.

Lemma pull_stops_at_first_failed_package_witness :
  fst (doPull Scenario.timeoutOrg Scenario.plainOptions Scenario.start)
  = Throw (retrieveFailed Scenario.quietOrg Scenario.failedResult)
  /\ fst (doPull Scenario.healthyOrg Scenario.plainOptions Scenario.start)
     = Ok [Some (mkPullResult (T:=Scenario.T0)
                   (Some ["classes/Foo.cls"; "classes/Bar.cls"]));
           Some (mkPullResult (T:=Scenario.T0)
                   (Some ["classes/Foo.cls"; "classes/Bar.cls"]))].
Proof.
  split.
  - set (X := Scenario.timeoutOrg).
    set (o := withDefaultWait X Scenario.plainOptions).
    set (s1 := snd (_checkForConflicts X o Scenario.start)).
    set (s2 := snd (revisionsAsPackage X s1)).
    set (f := pullPackage X o Scenario.twoPackages).
    set (s3 := snd (mapSeries f ["A"] s2)).
    set (s4 := snd (f "B" s3)).
    assert (Hc : _checkForConflicts X o Scenario.start = (Ok None, s1))
      by (vm_compute; reflexivity).
    assert (Hp : revisionsAsPackage X s1 = (Ok Scenario.twoPackages, s2))
      by (vm_compute; reflexivity).
    assert (Hm : mapSeries f ["A"] s2
                 = (Ok [Some (mkPullResult (T:=Scenario.T0)
                                (Some ["classes/Foo.cls"; "classes/Bar.cls"]))],
                    s3))
      by (vm_compute; reflexivity).
    assert (Hf : f "B" s3
                 = (Throw (retrieveFailed Scenario.quietOrg
                             Scenario.failedResult), s4))
      by (vm_compute; reflexivity).
    pose proof (proj2 (pull_stops_at_first_failed_package Scenario.T0 X
                         Scenario.plainOptions Scenario.start s1 s2 None
                         Scenario.twoPackages Hc Hp)
                  ["A"] "B" [] _ s3 _ s4 eq_refl Hm Hf) as E.
    exact (f_equal fst E).
  - set (X := Scenario.healthyOrg).
    set (o := withDefaultWait X Scenario.plainOptions).
    set (s1 := snd (_checkForConflicts X o Scenario.start)).
    set (s2 := snd (revisionsAsPackage X s1)).
    set (f := pullPackage X o Scenario.twoPackages).
    set (s3 := snd (mapSeries f ["A"; "B"] s2)).
    assert (Hc : _checkForConflicts X o Scenario.start = (Ok None, s1))
      by (vm_compute; reflexivity).
    assert (Hp : revisionsAsPackage X s1 = (Ok Scenario.twoPackages, s2))
      by (vm_compute; reflexivity).
    assert (Hm : mapSeries f (map fst Scenario.twoPackages) s2
                 = (Ok [Some (mkPullResult (T:=Scenario.T0)
                                (Some ["classes/Foo.cls"; "classes/Bar.cls"]));
                        Some (mkPullResult (T:=Scenario.T0)
                                (Some ["classes/Foo.cls"; "classes/Bar.cls"]))],
                    s3))
      by (vm_compute; reflexivity).
    pose proof (proj1 (pull_stops_at_first_failed_package Scenario.T0 X
                         Scenario.plainOptions Scenario.start s1 s2 None
                         Scenario.twoPackages Hc Hp) _ s3 Hm) as E.
    exact (f_equal fst E).
Defined.

(** C6, as first stated, fails: against an org without source tracking the
    pull throws the message text itself, which has no name; no error named
    UnsupportedEnvironment is made. *)
Lemma status_failure_is_not_named_unsupported_environment :
  fst (doPull (Scenario.org (Throw (ThrowErr Scenario.invalidType)) [] [] []
                 (fun _ => Ok None))
         Scenario.plainOptions Scenario.start)
  = Throw (ThrowVal (JStr "This command can only be used on orgs that have source tracking."))
  /\ thrownName (T:=Scenario.T0)
       (ThrowVal (JStr "This command can only be used on orgs that have source tracking."))
     <> Some "UnsupportedEnvironment".
Proof.
  split; [reflexivity | discriminate].
Qed.

Lemma status_failure_carries_message_witness :
  exists t,
    fst (doPull (Scenario.org (Throw (ThrowErr Scenario.invalidType)) [] [] []
                   (fun _ => Ok None))
           Scenario.plainOptions Scenario.start)
    = Throw t
    /\ thrownText t
       = JStr "This command can only be used on orgs that have source tracking.".
Proof.
  destruct (status_failure_carries_message Scenario.T0
              (Scenario.org (Throw (ThrowErr Scenario.invalidType)) [] [] []
                 (fun _ => Ok None))
              Scenario.plainOptions Scenario.start _ 0 Scenario.invalidType
              eq_refl eq_refl eq_refl) as [t [E Ht]].
  exists t. split; [|exact Ht].
  exact (eq_trans (f_equal fst E) eq_refl).
Defined.

Lemma conflict_check_gates_the_pull_witness :
  _checkForConflicts Scenario.conflictOrg Scenario.forcedOptions Scenario.start
  = (Ok (Some []), Scenario.start)
  /\ doPull Scenario.conflictOrg Scenario.plainOptions Scenario.start
     = (Throw (ThrowErr (mkJsError (T:=Scenario.T0) "SourceConflict"
                           (JStr "Conflicts found during sync down")
                           JUndefined None (Some ["Foo.cls"]))),
        mkState (T:=Scenario.T0) 0
          [EvStatusCreate; EvDoStatus true true; EvGetLocalConflicts] []).
Proof.
  split.
  - exact (proj1 (conflict_check_gates_the_pull Scenario.T0
                    Scenario.conflictOrg Scenario.forcedOptions
                    Scenario.start) eq_refl).
  - exact (proj2 (conflict_check_gates_the_pull Scenario.T0
                    Scenario.conflictOrg Scenario.plainOptions
                    Scenario.start) eq_refl 0 0 0 ["Foo.cls"]
             eq_refl eq_refl eq_refl ltac:(discriminate)).
Defined.

Lemma temp_dirs_open_one_at_a_time_witness :
  exists evs,
    trace (snd (doPull Scenario.timeoutOrg Scenario.plainOptions
                  Scenario.start))
    = trace Scenario.start ++ evs
    /\ tempDirOpen false evs = Some false.
Proof.
  exact (temp_dirs_open_one_at_a_time Scenario.T0 Scenario.timeoutOrg
           Scenario.plainOptions Scenario.start _ _
           (surjective_pairing _)).
Defined.

Lemma pull_calls_in_two_phases_witness :
  exists statusCalls pullCalls,
    trace (snd (doPull Scenario.timeoutOrg Scenario.forcedOptions
                  Scenario.start))
    = trace Scenario.start ++ statusCalls ++ pullCalls
    /\ Forall statusEvent statusCalls
    /\ Forall (pullEvent (withDefaultWait Scenario.timeoutOrg
                            Scenario.forcedOptions)) pullCalls
    /\ (truthy (forceoverwrite Scenario.forcedOptions) = true ->
        statusCalls = []).
Proof.
  exact (pull_calls_in_two_phases Scenario.T0 Scenario.timeoutOrg
           Scenario.forcedOptions Scenario.start _ _
           (surjective_pairing _)).
Defined.

Lemma package_calls_use_its_temp_dir_witness :
  exists before after,
    trace (snd (pullPackage Scenario.healthyOrg Scenario.plainOptions
                  Scenario.twoPackages "A" Scenario.start))
    = trace Scenario.start
        ++ [EvSetActivePackage "A"; EvCreateOutputDir]
        ++ before ++ [EvCleanupOutputDir (JStr "pull0")] ++ after
    /\ Forall (stepEvent (set_retrievetargetdir Scenario.plainOptions
                            (JStr "pull0"))) before
    /\ Forall (fun ev => isTracking ev = true) after.
Proof.
  destruct (package_calls_use_its_temp_dir Scenario.T0 Scenario.healthyOrg
              Scenario.plainOptions Scenario.twoPackages "A" Scenario.start
              0 1 "pull0" _ _ eq_refl eq_refl (surjective_pairing _))
    as [before [after [E [F1 [F2 _]]]]].
  exists before, after. auto.
Defined.

Lemma gateway_rejection_without_result_is_silent_witness :
  pullPackage Scenario.bareTimeoutOrg Scenario.plainOptions
    Scenario.twoPackages "A" Scenario.start
  = (Ok None,
     mkState (T:=Scenario.T0) 1
       [EvSetActivePackage "A"; EvCreateOutputDir;
        EvCreateManifest (T:=Scenario.T0) (JStr "pull0") ["Foo"; "Bar"];
        EvRetrieve (mkRetrieveOptions (JStr "pull0")
                      (JStr "pull0/package.xml") WaitUndefined);
        EvCleanupOutputDir (JStr "pull0")] []).
Proof.
  exact (gateway_rejection_without_result_is_silent Scenario.T0
           Scenario.bareTimeoutOrg Scenario.plainOptions
           Scenario.twoPackages "A" ["Foo"; "Bar"] Scenario.start
           (mkState (T:=Scenario.T0) 1
              [EvSetActivePackage "A"; EvCreateOutputDir;
               EvCreateManifest (T:=Scenario.T0) (JStr "pull0")
                 ["Foo"; "Bar"]] [])
           0 1 1 "pull0" (mkManifest JUndefined (JStr "pull0/package.xml"))
           Scenario.bareTimeout
           eq_refl eq_refl eq_refl eq_refl eq_refl eq_refl eq_refl).
Defined.

Lemma package_step_early_exits_witness :
  fst (pullPackage Scenario.noActivation Scenario.plainOptions
         Scenario.twoPackages "A" Scenario.start)
  = Throw Scenario.diskFull
  /\ pullPackage Scenario.noTempDir Scenario.plainOptions
       Scenario.twoPackages "A" Scenario.start
     = (Throw Scenario.diskFull,
        mkState (T:=Scenario.T0) 1
          [EvSetActivePackage "A"; EvCreateOutputDir;
           EvCleanupOutputDir JUndefined] []).
Proof.
  split.
  - exact (f_equal fst
             (proj1 (package_step_early_exits Scenario.T0
                       Scenario.noActivation Scenario.plainOptions
                       Scenario.twoPackages "A" Scenario.start)
                _ 0 eq_refl)).
  - exact (proj2 (package_step_early_exits Scenario.T0 Scenario.noTempDir
                    Scenario.plainOptions Scenario.twoPackages "A"
                    Scenario.start)
             0 _ 1 eq_refl eq_refl).
Defined.

Lemma apply_runs_in_three_phases_witness :
  _syncDownSource Scenario.obsoleteOrg Scenario.withManifestEntry
    Scenario.inPull0 (mkState (T:=Scenario.T0) 0 [] Scenario.goneNames)
  = (Ok ["classes/Foo.cls"; "classes/Bar.cls"; "-Gone"; "-Old"],
     mkState (T:=Scenario.T0) 0
       [ EvGetDefinitionProperties
           [ mkFileProperty "ApexClass" "Foo" "classes/Foo.cls";
             mkFileProperty "Package" "unpackaged/package.xml"
                            "unpackaged/package.xml";
             mkFileProperty "ApexClass" "Bar" "classes/Bar.cls" ];
         EvProcessMdapiFileProperty (T:=Scenario.T0) [] (JStr "pull0")
           (mkFileProperty "ApexClass" "Foo" "classes/Foo.cls")
           [None; None; None];
         EvProcessMdapiFileProperty (T:=Scenario.T0) ["classes/Foo.cls"]
           (JStr "pull0")
           (mkFileProperty "ApexClass" "Bar" "classes/Bar.cls")
           [None; None; None];
         EvHandleObsoleteSource (T:=Scenario.T0)
           ["classes/Foo.cls"; "classes/Bar.cls"] "Gone" "ApexClass";
         EvHandleObsoleteSource (T:=Scenario.T0)
           ["classes/Foo.cls"; "classes/Bar.cls"; "-Gone"] "Old"
           "ApexTrigger";
         EvUpdateSource (T:=Scenario.T0)
           ["classes/Foo.cls"; "classes/Bar.cls"; "-Gone"; "-Old"]
           JUndefined false JUndefined JUndefined ]
       Scenario.goneNames).
Proof.
  assert (Hf : FilesProcessed Scenario.obsoleteOrg (JStr "pull0")
                 [None; None; None] 0 []
                 [ mkFileProperty "ApexClass" "Foo" "classes/Foo.cls";
                   mkFileProperty "ApexClass" "Bar" "classes/Bar.cls" ]
                 [ []; ["classes/Foo.cls"] ]
                 ["classes/Foo.cls"; "classes/Bar.cls"] 0).
  { eapply fp_step; [reflexivity|].
    eapply fp_step; [reflexivity|]. apply fp_done. }
  assert (Hn : NamesHandled Scenario.obsoleteOrg 0
                 ["classes/Foo.cls"; "classes/Bar.cls"] Scenario.goneNames
                 [ ["classes/Foo.cls"; "classes/Bar.cls"];
                   ["classes/Foo.cls"; "classes/Bar.cls"; "-Gone"] ]
                 ["classes/Foo.cls"; "classes/Bar.cls"; "-Gone"; "-Old"] 0).
  { eapply nh_step; [reflexivity|].
    eapply nh_step; [reflexivity|]. apply nh_done. }
  exact (apply_runs_in_three_phases Scenario.T0 Scenario.obsoleteOrg
           Scenario.withManifestEntry Scenario.inPull0 _
           (mkState (T:=Scenario.T0) 0 [] Scenario.goneNames)
           _ _ _ _ _ _ eq_refl Hf Hn).
Defined.

Lemma failed_apply_records_nothing_witness :
  fst (_postRetrieve Scenario.noPersist (Some Scenario.twoClasses)
         Scenario.inPull0 Scenario.start)
  = Throw Scenario.diskFull
  /\ existsb isTracking
       (trace (snd (_postRetrieve Scenario.noPersist
                      (Some Scenario.twoClasses) Scenario.inPull0
                      Scenario.start)))
     = false.
Proof.
  assert (Ha : _syncDownSource Scenario.noPersist Scenario.twoClasses
                 Scenario.inPull0 Scenario.start
               = (Throw Scenario.diskFull,
                  snd (_syncDownSource Scenario.noPersist Scenario.twoClasses
                         Scenario.inPull0 Scenario.start)))
    by (vm_compute; reflexivity).
  destruct (failed_apply_records_nothing Scenario.T0 Scenario.noPersist
              Scenario.twoClasses Scenario.inPull0 Scenario.start _
              Scenario.diskFull eq_refl Ha) as [E _].
  split.
  - exact (f_equal fst E).
  - vm_compute. reflexivity.
Defined.

Lemma obsolete_names_fixed_by_partitioning_witness :
  exists st2,
    revisionsAsPackage Scenario.obsoleteOrg Scenario.start
    = (Ok Scenario.twoPackages, st2)
    /\ obsoleteNames st2 = Scenario.goneNames
    /\ forall items o st3,
        mapSeries (pullPackage Scenario.obsoleteOrg Scenario.plainOptions
                     Scenario.twoPackages) items st2 = (o, st3) ->
        obsoleteNames st3 = Scenario.goneNames.
Proof.
  exact (obsolete_names_fixed_by_partitioning Scenario.T0
           Scenario.obsoleteOrg Scenario.plainOptions Scenario.start
           Scenario.twoPackages Scenario.goneNames 0 eq_refl).
Defined.

Lemma pull_reports_one_result_per_package_witness :
  exists st1 packages st2 st3,
    revisionsAsPackage Scenario.healthyOrg st1 = (Ok packages, st2)
    /\ mapSeries (pullPackage Scenario.healthyOrg
                    (withDefaultWait Scenario.healthyOrg
                       Scenario.plainOptions) packages)
                 (map fst packages) st2
       = (Ok [Some (mkPullResult (T:=Scenario.T0)
                      (Some ["classes/Foo.cls"; "classes/Bar.cls"]));
              Some (mkPullResult (T:=Scenario.T0)
                      (Some ["classes/Foo.cls"; "classes/Bar.cls"]))],
          st3)
    /\ 2 = List.length packages
    /\ trace (snd (doPull Scenario.healthyOrg Scenario.plainOptions
                     Scenario.start))
       = trace st3 ++ [EvSetMaxRevisionCounterFromQuery].
Proof.
  assert (H : doPull Scenario.healthyOrg Scenario.plainOptions Scenario.start
              = (Ok [Some (mkPullResult (T:=Scenario.T0)
                             (Some ["classes/Foo.cls"; "classes/Bar.cls"]));
                     Some (mkPullResult (T:=Scenario.T0)
                             (Some ["classes/Foo.cls"; "classes/Bar.cls"]))],
                 snd (doPull Scenario.healthyOrg Scenario.plainOptions
                        Scenario.start)))
    by (vm_compute; reflexivity).
  exact (pull_reports_one_result_per_package Scenario.T0
           Scenario.healthyOrg Scenario.plainOptions Scenario.start _ _ H).
Defined.

Lemma prebuilt_manifest_needs_debug_witness :
  _createPackageManifest Scenario.healthyOrg Scenario.debugOptions
    (JStr "pull0") ["Foo"] Scenario.start
  = (Ok (mkManifest JUndefined (JStr "my/package.xml")), Scenario.start)
  /\ _createPackageManifest Scenario.healthyOrg Scenario.debugOptions
       (JStr "pull0") [] Scenario.start
     = (Ok (mkManifest (JBool true) JUndefined), Scenario.start).
Proof.
  destruct (prebuilt_manifest_needs_debug Scenario.T0 Scenario.healthyOrg
              Scenario.debugOptions (JStr "pull0") ["Foo"] Scenario.start)
    as [_ [H _]].
  destruct (prebuilt_manifest_needs_debug Scenario.T0 Scenario.healthyOrg
              Scenario.debugOptions (JStr "pull0") [] Scenario.start)
    as [H0 _].
  split.
  - exact (proj1 (H eq_refl eq_refl eq_refl)).
  - exact (H0 eq_refl).
Defined.

Lemma status_api_creation_failure_passes_through_witness :
  doPull Scenario.noStatusApi Scenario.plainOptions Scenario.start
  = (Throw Scenario.diskFull,
     mkState (T:=Scenario.T0) 0 [EvStatusCreate] []).
Proof.
  exact (status_api_creation_failure_passes_through Scenario.T0
           Scenario.noStatusApi Scenario.plainOptions Scenario.start
           Scenario.diskFull 0 eq_refl eq_refl).
Defined.

Lemma no_conflict_lets_the_pull_proceed_witness :
  _checkForConflicts Scenario.healthyOrg Scenario.plainOptions Scenario.start
  = (Ok None,
     mkState (T:=Scenario.T0) 0
       [EvStatusCreate; EvDoStatus true true; EvGetLocalConflicts] []).
Proof.
  exact (proj1 (no_conflict_lets_the_pull_proceed Scenario.T0
                  Scenario.healthyOrg Scenario.plainOptions Scenario.start
                  0 0 0 eq_refl eq_refl eq_refl eq_refl)).
Defined.


End SourcePullFacts.
